(** * arm_archive: a shallow embedding of [arm_archive.py] and its properties

    The module talks to two remote services of the ARM Archive: a SOAP web
    service (through [suds]) and an anonymous FTP server (through [ftplib]).
    The embedding keeps the Python functions as they are written and makes
    everything they touch explicit:

    - exceptions are values of [exn], a call returns a [result];
    - the outside world (requests sent to the web service, commands sent on
      the FTP control connection, the control connection itself, the files of
      the current working directory, standard output) is the record [world],
      threaded through the monad [M];
    - the remote services are oracles ([archive]): what they answer is not
      constrained, only what the client does with the answers is modelled;
    - the parts of the Python runtime the module relies on are modelled after
      CPython: [Re] (the backtracking matcher of [re], for the patterns the
      module itself writes down), [DateTime] ([strptime], [timedelta]
      addition and [strftime] of [datetime]), [sorted] and [filter].

    Strings are byte strings (Python 2 [str]); [\s] and [\d] are the ASCII
    classes. *)

From Stdlib Require Import ZArith Lia Bool Ascii.
From Stdlib Require String DecimalString.
From stdpp Require Import base gmap strings list sorting.

Local Open Scope Z_scope.

(** ** Exceptions and results *)

Inductive exn : Type :=
| ValueError        (* strptime, datetime constructor, strftime *)
| OverflowError     (* datetime + timedelta out of range *)
| re_error          (* re.compile on an invalid pattern *)
| TransportError    (* suds: the web service cannot be reached or answers garbage *)
| ftp_error.        (* ftplib.all_errors: refused command, broken transfer *)

Inductive result (A : Type) : Type :=
| Ok (a : A)
| Raise (e : exn).
Arguments Ok {A} a.
Arguments Raise {A} e.

Definition rbind {A B} (r : result A) (k : A → result B) : result B :=
  match r with
  | Ok a => k a
  | Raise e => Raise e
  end.

(** ** Regular expressions: the backtracking matcher of [re] *)

Module Re.

Definition charset := ascii → bool.

Definition in_range (lo hi : ascii) : charset :=
  fun c => ((lo <=? c) && (c <=? hi))%char.

(** [\s] without [re.UNICODE]: [[ \t\n\r\f\v]]. *)
Definition space : charset :=
  fun c => ((c =? " ") || (c =? "009") || (c =? "010")
            || (c =? "011") || (c =? "012") || (c =? "013"))%char.
(** [\d] and [[0-9]]. *)
Definition digit : charset := in_range "0" "9".
(** [[a-z]]. *)
Definition lower : charset := in_range "a" "z".
Definition one_of (cs : list ascii) : charset :=
  fun c => existsb (Ascii.eqb c) cs.

(** The fragment of the pattern language used by the patterns that
    [arm_archive.py] and [_strptime.py] write down: literal text, a
    character class, greedy repetition of a class, concatenation, ordered
    alternation and capturing groups. *)
Inductive regex : Type :=
| Str (s : string)
| Cls (p : charset)
| Star (p : charset)
| Cat (r1 r2 : regex)
| Alt (r1 r2 : regex)
| Grp (i : nat) (r : regex).

(** [p+] is [pp*]. *)
Definition Plus (p : charset) : regex := Cat (Cls p) (Star p).

Fixpoint cats (rs : list regex) : regex :=
  match rs with
  | [] => Str ""
  | [r] => r
  | r :: rs' => Cat r (cats rs')
  end.

Fixpoint alts (r : regex) (rs : list regex) : regex :=
  match rs with
  | [] => r
  | r' :: rs' => Alt r (alts r' rs')
  end.

(** [strip_prefix p s]: the rest of [s] after the literal [p]. *)
Fixpoint strip_prefix (p s : string) : option string :=
  match p, s with
  | EmptyString, _ => Some s
  | String a p', String b s' => if (a =? b)%char then strip_prefix p' s' else None
  | String _ _, EmptyString => None
  end.

Fixpoint take (n : nat) (s : string) : string :=
  match n, s with
  | S n', String c s' => String c (take n' s')
  | _, _ => EmptyString
  end.

(** The text consumed between the position where [s] starts and the later
    position where [s'] starts. *)
Definition consumed (s s' : string) : string :=
  take (String.length s - String.length s') s.

Section Matcher.
Context {R : Type}.

(** Greedy repetition: take one more character when possible, give it
    back when the rest of the pattern fails. *)
Fixpoint star (p : charset) (s : string) (gs : gmap nat string)
    (k : string → gmap nat string → option R) : option R :=
  match s with
  | String c s' =>
      if p c then
        match star p s' gs k with
        | Some r => Some r
        | None => k s gs
        end
      else k s gs
  | EmptyString => k s gs
  end.

(** [run r s gs k]: match [r] at the start of [s], then continue with [k]
    on what is left; alternatives are tried in order and the first
    complete success wins. *)
Fixpoint run (r : regex) (s : string) (gs : gmap nat string)
    (k : string → gmap nat string → option R) : option R :=
  match r with
  | Str p =>
      match strip_prefix p s with
      | Some s' => k s' gs
      | None => None
      end
  | Cls p =>
      match s with
      | String c s' => if p c then k s' gs else None
      | EmptyString => None
      end
  | Star p => star p s gs k
  | Cat r1 r2 => run r1 s gs (fun s' gs' => run r2 s' gs' k)
  | Alt r1 r2 =>
      match run r1 s gs k with
      | Some x => Some x
      | None => run r2 s gs k
      end
  | Grp i r1 => run r1 s gs (fun s' gs' => k s' (<[i := consumed s s']> gs'))
  end.
End Matcher.

(** A match object: the text after the match and the captured groups. *)
Record match_object : Type := MatchObject {
  rest : string;
  captures : gmap nat string
}.

(** [pattern.match(string)]: anchored at the start. *)
Definition match_ (r : regex) (s : string) : option match_object :=
  run r s ∅ (fun s' gs => Some (MatchObject s' gs)).

(** [pattern.search(string)]: the leftmost position where a match starts. *)
Fixpoint search (r : regex) (s : string) : option match_object :=
  match match_ r s with
  | Some m => Some m
  | None =>
      match s with
      | String _ s' => search r s'
      | EmptyString => None
      end
  end.

(** [match.groups()] for a pattern with [n] groups. *)
Definition groups (n : nat) (m : match_object) : list (option string) :=
  (fun i => captures m !! i) <$> seq 1 n.

End Re.

(** ** [datetime]: parsing, day arithmetic and formatting *)

Module DateTime.

Definition MINYEAR : Z := 1.
Definition MAXYEAR : Z := 9999.
(** [date(9999, 12, 31).toordinal()] *)
Definition _MAXORDINAL : Z := 3652059.

Definition _DAYS_IN_MONTH : list Z :=
  [-1; 31; 28; 31; 30; 31; 30; 31; 31; 30; 31; 30; 31].
Definition _DAYS_BEFORE_MONTH : list Z :=
  [-1; 0; 31; 59; 90; 120; 151; 181; 212; 243; 273; 304; 334].

(** [table[i]] for a valid index. *)
Definition item (table : list Z) (i : Z) : Z := nth (Z.to_nat i) table 0.

Definition _is_leap (year : Z) : bool :=
  (year mod 4 =? 0) && (negb (year mod 100 =? 0) || (year mod 400 =? 0)).

Definition _days_before_year (year : Z) : Z :=
  let y := year - 1 in
  y * 365 + y / 4 - y / 100 + y / 400.

Definition _days_in_month (year month : Z) : Z :=
  if (month =? 2) && _is_leap year then 29 else item _DAYS_IN_MONTH month.

Definition _days_before_month (year month : Z) : Z :=
  item _DAYS_BEFORE_MONTH month + (if (2 <? month) && _is_leap year then 1 else 0).

Definition _ymd2ord (year month day : Z) : Z :=
  _days_before_year year + _days_before_month year month + day.

Definition _DI400Y : Z := 146097.
Definition _DI100Y : Z := 36524.
Definition _DI4Y : Z := 1461.

(** Ordinal to (year, month, day), 01-Jan-0001 being day 1. *)
Definition _ord2ymd (n0 : Z) : Z * Z * Z :=
  let n := n0 - 1 in
  let n400 := n / _DI400Y in
  let n := n mod _DI400Y in
  let year := n400 * 400 + 1 in
  let n100 := n / _DI100Y in
  let n := n mod _DI100Y in
  let n4 := n / _DI4Y in
  let n := n mod _DI4Y in
  let n1 := n / 365 in
  let n := n mod 365 in
  let year := year + (n100 * 100 + n4 * 4 + n1) in
  if (n1 =? 4) || (n100 =? 4) then (year - 1, 12, 31)
  else
    let leapyear := (n1 =? 3) && (negb (n4 =? 24) || (n100 =? 3)) in
    let month := Z.shiftr (n + 50) 5 in
    let preceding :=
      item _DAYS_BEFORE_MONTH month + (if (2 <? month) && leapyear then 1 else 0) in
    if n <? preceding then
      let month := month - 1 in
      let preceding :=
        preceding
        - (item _DAYS_IN_MONTH month + (if (month =? 2) && leapyear then 1 else 0)) in
      (year, month, n - preceding + 1)
    else (year, month, n - preceding + 1).

(** A [datetime] whose time of day is midnight: the only ones the module
    builds ([strptime] with a date-only format, plus whole days). *)
Record datetime : Type := Datetime {
  year : Z;
  month : Z;
  day : Z
}.

(** The range check of the [datetime] constructor. *)
Definition valid_ymd (y m d : Z) : bool :=
  (MINYEAR <=? y) && (y <=? MAXYEAR) && (1 <=? m) && (m <=? 12)
  && (1 <=? d) && (d <=? _days_in_month y m).

Definition new (y m d : Z) : result datetime :=
  if valid_ymd y m d then Ok (Datetime y m d) else Raise ValueError.

Definition toordinal (dt : datetime) : Z := _ymd2ord (year dt) (month dt) (day dt).

Definition fromordinal (n : Z) : datetime :=
  let '(y, m, d) := _ord2ymd n in Datetime y m d.

(** [dt + timedelta(days=days)] *)
Definition add_days (dt : datetime) (days : Z) : result datetime :=
  let o := toordinal dt + days in
  if (0 <? o) && (o <=? _MAXORDINAL) then Ok (fromordinal o) else Raise OverflowError.

(** The regular expressions [_strptime] keeps for the directives [%Y],
    [%m] and [%d]: [\d\d\d\d], [1[0-2]|0[1-9]|[1-9]] and
    [3[0-1]|[1-2]\d|0[1-9]|[1-9]| [1-9]]. *)
Definition directive_Y : Re.regex :=
  Re.cats [Re.Cls Re.digit; Re.Cls Re.digit; Re.Cls Re.digit; Re.Cls Re.digit].
Definition directive_m : Re.regex :=
  Re.alts (Re.Cat (Re.Str "1") (Re.Cls (Re.in_range "0" "2")))
    [ Re.Cat (Re.Str "0") (Re.Cls (Re.in_range "1" "9"));
      Re.Cls (Re.in_range "1" "9") ].
Definition directive_d : Re.regex :=
  Re.alts (Re.Cat (Re.Str "3") (Re.Cls (Re.in_range "0" "1")))
    [ Re.Cat (Re.Cls (Re.in_range "1" "2")) (Re.Cls Re.digit);
      Re.Cat (Re.Str "0") (Re.Cls (Re.in_range "1" "9"));
      Re.Cls (Re.in_range "1" "9");
      Re.Cat (Re.Str " ") (Re.Cls (Re.in_range "1" "9")) ].

(** The regular expression [_strptime] builds for the format ['%Y%m%d']:
    [(?P<Y>...)(?P<m>...)(?P<d>...)]; the groups Y, m, d are numbered
    1, 2, 3. *)
Definition format_regex : Re.regex :=
  Re.cats [Re.Grp 1 directive_Y; Re.Grp 2 directive_m; Re.Grp 3 directive_d].

Definition digit_value (c : ascii) : Z := Z.of_N (N_of_ascii c) - 48.

Fixpoint int_digits (acc : Z) (s : string) : result Z :=
  match s with
  | EmptyString => Ok acc
  | String c s' =>
      if Re.digit c then int_digits (10 * acc + digit_value c) s' else Raise ValueError
  end.

Fixpoint lstrip (s : string) : string :=
  match s with
  | String c s' => if Re.space c then lstrip s' else s
  | EmptyString => s
  end.

(** [int(s)] on an unsigned decimal numeral, leading blanks skipped. *)
Definition int (s : string) : result Z :=
  match lstrip s with
  | EmptyString => Raise ValueError
  | s' => int_digits 0 s'
  end.

Definition group (found : Re.match_object) (i : nat) : string :=
  default "" (Re.captures found !! i).

(** [datetime.strptime(data_string, '%Y%m%d')]: the format's regular
    expression must match at the start of the string and consume all of it;
    the three fields are converted with [int] and handed to the
    constructor, which checks the ranges. *)
Definition strptime (data_string : string) : result datetime :=
  match Re.match_ format_regex data_string with
  | None => Raise ValueError
  | Some found =>
      if String.eqb (Re.rest found) "" then
        rbind (int (group found 1)) (fun y =>
        rbind (int (group found 2)) (fun m =>
        rbind (int (group found 3)) (fun d =>
        new y m d)))
      else Raise ValueError
  end.

Definition digit_char (d : Z) : ascii := ascii_of_N (Z.to_N (48 + d mod 10)).

(** ['%02d' % n] and ['%04d' % n] *)
Definition zfill2 (n : Z) : string :=
  String (digit_char (n / 10)) (String (digit_char n) "").
Definition zfill4 (n : Z) : string :=
  String (digit_char (n / 1000)) (String (digit_char (n / 100))
    (String (digit_char (n / 10)) (String (digit_char n) ""))).

(** [dt.strftime('%Y%m%d')]. [min_year] is the first year [strftime]
    accepts: 1900 on Python 2.7, 1 on Python 3. *)
Definition strftime (min_year : Z) (dt : datetime) : result string :=
  if year dt <? min_year then Raise ValueError
  else Ok (zfill4 (year dt) +:+ zfill2 (month dt) +:+ zfill2 (day dt)).

End DateTime.

(** ** The Python runtime the module runs on *)

(** [re] for patterns supplied by the caller ([re.compile] either rejects a
    pattern or yields a compiled pattern whose [search] finds a match
    somewhere in a string or not), and the first year [strftime] formats. *)
Class PyRuntime : Type := {
  re_pattern : Type;
  re_compile : string → result re_pattern;
  re_search : re_pattern → string → bool;
  strftime_min_year : Z
}.

(** [sorted] on a list of byte strings: ascending, byte-wise lexicographic.
    The order is total and antisymmetric, so every sorting algorithm returns
    the same list. *)
Definition sorted (l : list string) : list string := merge_sort String.le l.

(** ** Arguments that Python leaves untyped *)

(** [str or list] *)
Inductive str_or_list : Type :=
| a_str (s : string)
| a_list (l : list string).

(** [str or int] *)
Inductive str_or_int : Type :=
| an_str (s : string)
| an_int (z : Z).

(** [str(order_id)] *)
Definition str (x : str_or_int) : string :=
  match x with
  | an_str s => s
  | an_int z => DecimalString.NilZero.string_of_int (Z.to_int z)
  end.

(** ** The remote services and the world *)

(** Operations of the SOAP service, with the arguments put on the wire. *)
Inductive soap_call : Type :=
| getDataStreams
| getFiles (datastreams : str_or_list) (startDate endDate : string)
| isValidUser (userID : string)
| processOrder (userID : string) (filesNamesList : list string)
| getOrderStatus (sessionID : str_or_int)
| clearOrder (archID : string) (sessionID : str_or_int).

Inductive ws_event : Type :=
| OpenClient (url : string)
| Invoke (call : soap_call).

(** Commands sent on an FTP control connection, at the level of the
    [ftplib.FTP] methods. *)
Inductive ftp_command : Type :=
| CONNECT (host : string)
| LOGIN
| CWD (dirname : string)
| NLST
| RETRBINARY (cmd : string)
| QUIT.

(** What the archive answers. The FTP server sees the commands sent so far. *)
Record archive : Type := {
  wsdl : string → result unit;
  reply_list : soap_call → result (list string);
  reply_text : soap_call → result string;
  ftp_accepts : list ftp_command → ftp_command → bool;
  ftp_listing : list ftp_command → option (list string);
  (** blocks of data delivered for a retrieval, and whether the transfer
      then completed *)
  ftp_transfer : list ftp_command → string → list string * bool
}.

Record world : Type := World {
  ws_trace : list ws_event;
  ftp_trace : list ftp_command;
  (** control connections connected and not closed *)
  ftp_open : nat;
  (** the current working directory: file name to content *)
  cwd_files : gmap string string;
  stdout : list string
}.

(** Computations: state passing with exceptions. *)
Definition M (A : Type) : Type := world → world * result A.

Definition ret {A} (a : A) : M A := fun w => (w, Ok a).
Definition raise {A} (e : exn) : M A := fun w => (w, Raise e).
Definition bind {A B} (m : M A) (k : A → M B) : M B :=
  fun w =>
    match m w with
    | (w', Ok a) => k a w'
    | (w', Raise e) => (w', Raise e)
    end.
Definition lift {A} (r : result A) : M A := fun w => (w, r).

Declare Scope py_scope.
Delimit Scope py_scope with py.
Notation "x <- m ;; k" := (bind m (fun x => k))
  (at level 100, m at next level, right associativity) : py_scope.
Notation "m ;; k" := (bind m (fun _ => k))
  (at level 100, right associativity) : py_scope.
Local Open Scope py_scope.

(** *** suds *)

Definition _ARM_WS_URL : string := "http://www.archive.arm.gov/armws/services/arm?wsdl".
Definition _ARM_FTP : string := "ftp.archive.arm.gov".

Section Client.
Context `{PyRuntime} (A : archive).

Definition log_ws (e : ws_event) : M unit :=
  fun w => (World (ws_trace w ++ [e]) (ftp_trace w) (ftp_open w) (cwd_files w) (stdout w), Ok tt).

(** [Client(url)]: fetches the service description. *)
Definition Client (url : string) : M unit :=
  log_ws (OpenClient url) ;; lift (wsdl A url).

(** [client.service.<operation>(...)] for an operation that answers a list. *)
Definition service_list (c : soap_call) : M (list string) :=
  log_ws (Invoke c) ;; lift (reply_list A c).

(** [client.service.<operation>(...)] for an operation that answers text. *)
Definition service_text (c : soap_call) : M string :=
  log_ws (Invoke c) ;; lift (reply_text A c).

(** *** ftplib *)

Definition send (c : ftp_command) : M bool :=
  fun w =>
    (World (ws_trace w) (ftp_trace w ++ [c]) (ftp_open w) (cwd_files w) (stdout w),
     Ok (ftp_accepts A (ftp_trace w) c)).

Definition set_open (f : nat → nat) : M unit :=
  fun w => (World (ws_trace w) (ftp_trace w) (f (ftp_open w)) (cwd_files w) (stdout w), Ok tt).

Definition voidcmd (c : ftp_command) : M unit :=
  ok <- send c ;; if ok : bool then ret tt else raise ftp_error.

(** [FTP(host)] *)
Definition FTP (host : string) : M unit :=
  voidcmd (CONNECT host) ;; set_open S.
Definition ftp_login : M unit := voidcmd LOGIN.
Definition ftp_cwd (dirname : string) : M unit := voidcmd (CWD dirname).
Definition ftp_nlst : M (list string) :=
  fun w =>
    (World (ws_trace w) (ftp_trace w ++ [NLST]) (ftp_open w) (cwd_files w) (stdout w),
     match ftp_listing A (ftp_trace w) with
     | Some names => Ok names
     | None => Raise ftp_error
     end).
(** [quit]: send QUIT, then close the connection. *)
Definition ftp_quit : M unit :=
  voidcmd QUIT ;; set_open Nat.pred.

Fixpoint for_each {X} (body : X → M unit) (xs : list X) : M unit :=
  match xs with
  | [] => ret tt
  | x :: xs' => body x ;; for_each body xs'
  end.

(** [retrbinary(cmd, callback)]: every block received is handed to
    [callback]; an error reply at the start or at the end of the transfer
    raises. *)
Definition ftp_retrbinary (cmd : string) (callback : string → M unit) : M unit :=
  fun w =>
    let '(blocks, complete) := ftp_transfer A (ftp_trace w) cmd in
    (send (RETRBINARY cmd) ;;
     for_each callback blocks ;;
     if complete : bool then ret tt else raise ftp_error) w.

(** *** Files and standard output *)

(** [open(name, 'wb')]: the file is created, or cut to length zero when it
    is there already. *)
Definition open_wb (name : string) : M unit :=
  fun w => (World (ws_trace w) (ftp_trace w) (ftp_open w) (<[name := ""]> (cwd_files w)) (stdout w), Ok tt).

(** [f.write(data)] on the file opened under [name] *)
Definition write (name : string) (data : string) : M unit :=
  fun w =>
    (World (ws_trace w) (ftp_trace w) (ftp_open w)
       (<[name := default "" (cwd_files w !! name) +:+ data]> (cwd_files w)) (stdout w), Ok tt).

Definition print (line : string) : M unit :=
  fun w => (World (ws_trace w) (ftp_trace w) (ftp_open w) (cwd_files w) (stdout w ++ [line]), Ok tt).

End Client.

(** ** arm_archive.py *)

(** The second component of what [order_files] returns: the groups of the
    confirmation on success, the response of the server otherwise. *)
Inductive order_details : Type :=
| confirmation (groups : list (option string))
| server_response (response : string).

(** [user:\s*([a-z]+), order session ID:\s*([0-9]+) number of files ordered:\s*([0-9]+)] *)
Definition order_pattern : Re.regex :=
  Re.cats
    [ Re.Str "user:"; Re.Star Re.space; Re.Grp 1 (Re.Plus Re.lower);
      Re.Str ", order session ID:"; Re.Star Re.space; Re.Grp 2 (Re.Plus Re.digit);
      Re.Str " number of files ordered:"; Re.Star Re.space; Re.Grp 3 (Re.Plus Re.digit) ].

Section ArmArchive.
Context `{PyRuntime} (A : archive).

Definition _init_client : M unit := Client A _ARM_WS_URL.

Definition _regex_filter (sequence : list string) (pattern : option string)
  : result (list string) :=
  match pattern with
  | None => Ok sequence
  | Some pattern =>
      rbind (re_compile pattern) (fun p =>
      Ok (List.filter (re_search p) sequence))
  end.

Definition list_datastreams (pattern : option string) : M (list string) :=
  _init_client ;;
  datastreams <- service_list A getDataStreams ;;
  filtered <- lift (_regex_filter datastreams pattern) ;;
  ret (sorted filtered).

Definition list_files (datastreams : str_or_list) (startdate : string)
    (enddate : option string) (pattern : option string) : M (list string) :=
  _init_client ;;
  enddate <- match enddate with
             | None =>
                 dt <- lift (DateTime.strptime startdate) ;;
                 next <- lift (DateTime.add_days dt 1) ;;
                 lift (DateTime.strftime strftime_min_year next)
             | Some enddate => ret enddate
             end ;;
  files <- service_list A (getFiles datastreams startdate enddate) ;;
  if (length files =? 1)%nat && String.eqb (nth 0 files "") "No data files found"
  then ret []
  else
    filtered <- lift (_regex_filter files pattern) ;;
    ret (sorted filtered).

Definition valid_user (user : string) : M bool :=
  _init_client ;;
  valid <- service_text A (isValidUser user) ;;
  if String.eqb valid "true" then ret true else ret false.

Definition order_files (user : string) (filenames : list string)
  : M (bool * order_details) :=
  _init_client ;;
  response <- service_text A (processOrder user filenames) ;;
  match Re.search order_pattern response with
  | Some match_ => ret (true, confirmation (Re.groups 3 match_))
  | None => ret (false, server_response response)
  end.

Definition order_status (order_id : str_or_int) : M string :=
  _init_client ;;
  service_text A (getOrderStatus order_id).

Definition order_clear (user : string) (order_id : str_or_int) : M bool :=
  _init_client ;;
  response <- service_text A (clearOrder user order_id) ;;
  if String.eqb response "true" then ret true else ret false.

(** One turn of the loop of [order_download]. The arguments of
    [retrbinary] are evaluated first, so the local file is opened before
    the retrieval is asked for. *)
Definition download_one (filename : string) : M unit :=
  print ("Retrieving: " +:+ filename) ;;
  open_wb filename ;;
  ftp_retrbinary A ("RETR " +:+ filename) (write filename).

Definition order_download (user : string) (order_id : str_or_int)
    (files : option str_or_list) : M unit :=
  FTP A _ARM_FTP ;;
  ftp_login A ;;
  ftp_cwd A user ;;
  ftp_cwd A (str order_id) ;;
  files <- match files with
           | None => listing <- ftp_nlst A ;; ret (a_list listing)
           | Some files => ret files
           end ;;
  let files := match files with
               | a_str name => [name]
               | a_list names => names
               end in
  for_each download_one files ;;
  ftp_quit A ;;
  ret tt.

Definition list_order_files (user : string) (order_id : str_or_int) : M (list string) :=
  FTP A _ARM_FTP ;;
  ftp_login A ;;
  ftp_cwd A user ;;
  ftp_cwd A (str order_id) ;;
  ftp_nlst A.

Definition list_orders_ready (user : string) : M (list string) :=
  FTP A _ARM_FTP ;;
  ftp_login A ;;
  ftp_cwd A user ;;
  ftp_nlst A.

End ArmArchive.

(** ** Concrete runtimes, archives and worlds used in the examples *)

(** A runtime whose [re] knows the patterns written as plain text: the
    pattern matches where the text occurs. Python 2.7 formats years from
    1900 on. *)
Definition literal_runtime : PyRuntime := {|
  re_pattern := Re.regex;
  re_compile := fun p => Ok (Re.Str p);
  re_search := fun r s => bool_decide (is_Some (Re.search r s));
  strftime_min_year := 1900
|}.

Definition world0 : world := World [] [] 0 ∅ [].

(** An archive that answers every list request with [files], every text
    request with [text], and whose FTP server lists [names] and serves
    every file in two blocks, except [broken], which it refuses. *)
Definition toy_archive (files : list string) (text : string)
    (names : list string) (broken : string) : archive := {|
  wsdl := fun _ => Ok tt;
  reply_list := fun _ => Ok files;
  reply_text := fun _ => Ok text;
  ftp_accepts := fun _ _ => true;
  ftp_listing := fun _ => Some names;
  ftp_transfer := fun _ cmd =>
    if String.eqb cmd ("RETR " +:+ broken) then ([], false)
    else (["<" +:+ cmd; ">"], true)
|}.

(** ** Notions used to state the properties *)

(** The world after one more event on the web-service side. *)
Definition logged (e : ws_event) (w : world) : world :=
  World (ws_trace w ++ [e]) (ftp_trace w) (ftp_open w) (cwd_files w) (stdout w).

(** The end date [list_files] sends: the one supplied, or the day after
    [startdate]. *)
Definition end_date_used `{PyRuntime} (startdate : string) (enddate : option string)
  : result string :=
  match enddate with
  | Some e => Ok e
  | None =>
      rbind (DateTime.strptime startdate) (fun dt =>
      rbind (DateTime.add_days dt 1) (fun next =>
      DateTime.strftime strftime_min_year next))
  end.

(** The sentinel normalisation of [list_files]. *)
Definition no_data (files : list string) : bool :=
  (length files =? 1)%nat && String.eqb (nth 0 files "") "No data files found".


(** What [list_files] makes of the reply before filtering and sorting. *)
Definition normalized (files : list string) : list string :=
  if no_data files then [] else files.

(** Whether an optional pattern finds a match somewhere in [x]; no pattern
    selects everything, a pattern [re.compile] rejects selects nothing. *)
Definition matches_somewhere `{PyRuntime} (pattern : option string) (x : string) : bool :=
  match pattern with
  | None => true
  | Some pat =>
      match re_compile pat with
      | Ok p => re_search p x
      | Raise _ => false
      end
  end.

(** [r] is the outcome of listing [entries] under [pattern]: a sorted list
    holding exactly the selected entries, the same whatever the order of
    [entries]; or the error of [re.compile]. *)
Definition listing_of `{PyRuntime} (pattern : option string) (entries : list string)
    (r : result (list string)) : Prop :=
  match r with
  | Ok l =>
      StronglySorted String.le l
      ∧ l ≡ₚ List.filter (matches_somewhere pattern) entries
      ∧ ∀ entries', entries' ≡ₚ entries →
          sorted (List.filter (matches_somewhere pattern) entries') = l
  | Raise e => ∃ pat, pattern = Some pat ∧ re_compile pat = Raise e
  end.

(** The retrieval command [order_download] sends for a file, and the line
    it prints before. *)
Definition retr (name : string) : ftp_command := RETRBINARY ("RETR " +:+ name).
Definition announce (name : string) : string := "Retrieving: " +:+ name.

(** The commands that open a session on the directory of an order. *)
Definition session_start (user : string) (order_id : str_or_int) : list ftp_command :=
  [CONNECT _ARM_FTP; LOGIN; CWD user; CWD (str order_id)].

(** The blocks of a transfer, put together. *)
Definition join (blocks : list string) : string := foldr String.append "" blocks.

(** What the server delivers for [name] when asked after the commands [hist]. *)
Definition delivered (A : archive) (hist : list ftp_command) (name : string) : string :=
  join (fst (ftp_transfer A hist ("RETR " +:+ name))).

(** The world with more commands on the FTP trace and [n] open connections. *)
Definition with_ftp (w : world) (cmds : list ftp_command) (n : nat) : world :=
  World (ws_trace w) (ftp_trace w ++ cmds) n (cwd_files w) (stdout w).

(** The files [order_download] goes through: the listing of the order
    directory when [files] is [None], the one name when it is a string, the
    names as given when it is a list. *)
Definition requested (A : archive) (files : option str_or_list)
    (hist : list ftp_command) : option (list string) :=
  match files with
  | None => ftp_listing A hist
  | Some (a_str name) => Some [name]
  | Some (a_list names) => Some names
  end.

(** The commands up to the first retrieval: the session start, and the
    listing when no file is named. *)
Definition preamble (user : string) (order_id : str_or_int)
    (files : option str_or_list) : list ftp_command :=
  session_start user order_id ++ (if files is None then [NLST] else []).

(** The commands of a complete run of [order_download] over [names]. *)
Definition download_commands (user : string) (order_id : str_or_int)
    (files : option str_or_list) (names : list string) : list ftp_command :=
  preamble user order_id files ++ (retr <$> names) ++ [QUIT].

(** The files the loop of [order_download] gets to when it goes through
    [names] after the commands [hist], up to and including the first one
    whose transfer breaks, and whether every transfer completed. *)
Fixpoint transferred (A : archive) (hist : list ftp_command) (names : list string)
  : list string * bool :=
  match names with
  | [] => ([], true)
  | name :: names' =>
      if snd (ftp_transfer A hist ("RETR " +:+ name)) then
        let '(done, ok) := transferred A (hist ++ [retr name]) names' in
        (name :: done, ok)
      else ([name], false)
  end.

(** The directory after the files [done] have been opened and written in
    turn, starting after the commands [hist]. *)
Fixpoint stored (A : archive) (hist : list ftp_command) (done : list string)
    (dir : gmap string string) : gmap string string :=
  match done with
  | [] => dir
  | name :: done' =>
      stored A (hist ++ [retr name]) done' (<[name := delivered A hist name]> dir)
  end.

(** The world with another content of the working directory. *)
Definition with_dir (w : world) (dir : gmap string string) : world :=
  World (ws_trace w) (ftp_trace w) (ftp_open w) dir (stdout w).

(** Every character of [s] is in the class [p]; and [s] is not empty. *)
Fixpoint every (p : Re.charset) (s : string) : bool :=
  match s with
  | EmptyString => true
  | String c s' => p c && every p s'
  end.

Definition one_or_more (p : Re.charset) (s : string) : bool :=
  match s with
  | EmptyString => false
  | String _ _ => every p s
  end.

(** What a pattern denotes: [derives r s gs gs'] when [r] matches exactly the
    text [s] and turns the captured groups [gs] into [gs']. *)
Inductive derives : Re.regex → string → gmap nat string → gmap nat string → Prop :=
| derives_str (p : string) gs :
    derives (Re.Str p) p gs gs
| derives_cls (p : Re.charset) c gs :
    p c = true → derives (Re.Cls p) (String c "") gs gs
| derives_star (p : Re.charset) s gs :
    every p s = true → derives (Re.Star p) s gs gs
| derives_cat r1 r2 s1 s2 gs gs1 gs2 :
    derives r1 s1 gs gs1 → derives r2 s2 gs1 gs2 →
    derives (Re.Cat r1 r2) (s1 +:+ s2) gs gs2
| derives_alt_l r1 r2 s gs gs' :
    derives r1 s gs gs' → derives (Re.Alt r1 r2) s gs gs'
| derives_alt_r r1 r2 s gs gs' :
    derives r2 s gs gs' → derives (Re.Alt r1 r2) s gs gs'
| derives_grp i r s gs gs' :
    derives r s gs gs' → derives (Re.Grp i r) s gs (<[i := s]> gs').

(** [response] holds a confirmation of the shape [order_files] looks for,
    with user [u], order session [o] and file count [n]. *)
Definition confirms (response u o n : string) : Prop :=
  ∃ before ws1 ws2 ws3 after,
    response = before +:+ "user:" +:+ ws1 +:+ u +:+ ", order session ID:" +:+ ws2
               +:+ o +:+ " number of files ordered:" +:+ ws3 +:+ n +:+ after
    ∧ every Re.space ws1 = true ∧ one_or_more Re.lower u = true
    ∧ every Re.space ws2 = true ∧ one_or_more Re.digit o = true
    ∧ every Re.space ws3 = true ∧ one_or_more Re.digit n = true.

(** *** The calendar *)

(** The Gregorian rule. *)
Definition leap_year (y : Z) : bool :=
  ((y mod 4 =? 0) && negb (y mod 100 =? 0)) || (y mod 400 =? 0).

Definition month_length (y m : Z) : Z :=
  if m =? 2 then (if leap_year y then 29 else 28)
  else if (m =? 4) || (m =? 6) || (m =? 9) || (m =? 11) then 30
  else 31.

(** A day of the calendar, in the years [datetime] knows. *)
Definition valid_date (y m d : Z) : Prop :=
  1 ≤ y ≤ 9999 ∧ 1 ≤ m ≤ 12 ∧ 1 ≤ d ≤ month_length y m.

(** The day after: the next day of the month, else the first of the next
    month, else the first of January of the next year. *)
Definition next_day (y m d : Z) : Z * Z * Z :=
  if d <? month_length y m then (y, m, d + 1)
  else if m <? 12 then (y, m + 1, 1)
  else (y + 1, 1, 1).

(** A date written [YYYYMMDD]. *)
Definition yyyymmdd (y m d : Z) : string :=
  DateTime.zfill4 y +:+ DateTime.zfill2 m +:+ DateTime.zfill2 d.

(** The month and the day [_ord2ymd] works out from the day of the year,
    counted from 0. *)
Definition month_day (leapyear : bool) (n : Z) : Z * Z :=
  let month := Z.shiftr (n + 50) 5 in
  let preceding :=
    DateTime.item DateTime._DAYS_BEFORE_MONTH month
    + (if (2 <? month) && leapyear then 1 else 0) in
  if n <? preceding then
    let month := month - 1 in
    let preceding :=
      preceding
      - (DateTime.item DateTime._DAYS_IN_MONTH month
         + (if (month =? 2) && leapyear then 1 else 0)) in
    (month, n - preceding + 1)
  else (month, n - preceding + 1).
(** ** The command line: [main] after the arguments are parsed *)

(** The namespace [parser.parse_args] returns, one shape per subcommand;
    [no_command] is the namespace without a subcommand. *)
Inductive namespace : Type :=
| datastreams_cmd (regex : option string)
| order_cmd (user : string) (files : list string)
    (dates : option (string * string * string)) (file : option string)
| list_cmd (datastream start : string) (end_ : option string) (regex : option string)
| cancel_cmd (user order_id : string)
| status_cmd (order_id : string)
| download_cmd (user order_id : string) (regex : option string) (files : list string)
| files_cmd (user order_id : string)
| ready_cmd (user : string)
| no_command.

(** What ends a run of [main] early: an exception of the functions above,
    [SystemExit], or an error of the interpreter itself. *)
Inductive raised : Type :=
| uncaught (e : exn)
| SystemExit (msg : string)
| IOError
| AttributeError.

Inductive ended (A : Type) : Type :=
| Returned (a : A)
| Raised (r : raised).
Arguments Returned {A} a.
Arguments Raised {A} r.

Definition Main (A : Type) : Type := world → world * ended A.

Definition main_ret {A} (a : A) : Main A := fun w => (w, Returned a).
Definition main_raise {A} (r : raised) : Main A := fun w => (w, Raised r).
Definition main_bind {A B} (m : Main A) (k : A → Main B) : Main B :=
  fun w =>
    match m w with
    | (w', Returned a) => k a w'
    | (w', Raised r) => (w', Raised r)
    end.
(** A call of one of the functions of the module. *)
Definition call {A} (m : M A) : Main A :=
  fun w =>
    match m w with
    | (w', Ok a) => (w', Returned a)
    | (w', Raise e) => (w', Raised (uncaught e))
    end.

Declare Scope main_scope.
Notation "x <- m ;; k" := (main_bind m (fun x => k))
  (at level 100, m at next level, right associativity) : main_scope.
Notation "m ;; k" := (main_bind m (fun _ => k))
  (at level 100, right associativity) : main_scope.

(** [s.strip()] *)
Definition strip (s : string) : string :=
  String.rev (DateTime.lstrip (String.rev (DateTime.lstrip s))).

(** The lines of a text file as iteration over the file gives them, each
    with its newline; [cur] is the line being read. *)
Fixpoint lines_from (cur : string) (s : string) : list string :=
  match s with
  | EmptyString => if String.eqb cur "" then [] else [cur]
  | String c s' =>
      if (c =? "010")%char then (cur +:+ String c "") :: lines_from "" s'
      else lines_from (cur +:+ String c "") s'
  end.

(** [open(name)] then iteration: the lines of a file of the working
    directory. *)
Definition read_lines (name : string) : Main (list string) :=
  fun w =>
    match cwd_files w !! name with
    | Some content => (w, Returned (lines_from "" content))
    | None => (w, Raised IOError)
    end.

(** ['%s' % x] for an element of [match.groups()] *)
Definition percent_s (x : option string) : string := default "None" x.

(** [str(b)] *)
Definition str_bool (b : bool) : string := if b then "True" else "False".

Section CommandLine.
Context `{PyRuntime} (A : archive).
(** The text of [parser.print_usage()]. *)
Context (usage : string).
Local Open Scope main_scope.

Definition print_all (lines : list string) : Main unit :=
  call (for_each print lines).

(** The report of the [order] command on what [order_files] returned:
    [True] comes with the groups, [False] with the response of the server
    (the last case does not occur). *)
Definition report_order (status : bool) (flag : order_details) : string :=
  match status, flag with
  | true, confirmation groups =>
      "Success " +:+ percent_s (nth 2 groups None) +:+ " file(s) ordered, order_id: "
      +:+ percent_s (nth 1 groups None)
  | _, server_response response =>
      "Order failed, response from server:" +:+ String "010" " " +:+ response
  | false, confirmation _ => "Order failed, response from server:" +:+ String "010" " "
  end.

(** [main], from the dispatch on [args.cmd]. In the [order] command the
    files named on the command line come first, then the file list, then
    the date range; the guard before makes sure there is one of them. *)
Definition main (args : namespace) : Main unit :=
  match args with
  | datastreams_cmd regex =>
      names <- call (list_datastreams A regex) ;;
      print_all names
  | order_cmd user files dates file =>
      if bool_decide (dates = None) && bool_decide (file = None)
         && (length files =? 0)%nat
      then main_raise (SystemExit "error: no files to order")
      else
        files <- (if negb (length files =? 0)%nat then main_ret files
                  else match file, dates with
                       | Some name, _ =>
                           lines <- read_lines name ;;
                           main_ret (strip <$> lines)
                       | None, Some (dataset, start, end_) =>
                           call (list_files A (a_str dataset) start (Some end_) None)
                       | None, None => main_ret files
                       end) ;;
        answer <- call (order_files A user files) ;;
        call (print (report_order (fst answer) (snd answer)))
  | list_cmd datastream start end_ regex =>
      fs <- call (list_files A (a_str datastream) start end_ regex) ;;
      print_all fs
  | cancel_cmd user order_id =>
      cleared <- call (order_clear A user (an_str order_id)) ;;
      call (print (str_bool cleared))
  | status_cmd order_id =>
      status <- call (order_status A (an_str order_id)) ;;
      call (print status)
  | download_cmd user order_id regex files =>
      files <- match regex with
               | Some pattern =>
                   listing <- call (list_order_files A user (an_str order_id)) ;;
                   filtered <- call (lift (_regex_filter listing (Some pattern))) ;;
                   main_ret (Some (a_list filtered))
               | None =>
                   if (length files =? 0)%nat then main_ret None
                   else main_ret (Some (a_list files))
               end ;;
      call (order_download A user (an_str order_id) files)
  | files_cmd user order_id =>
      fs <- call (list_order_files A user (an_str order_id)) ;;
      print_all fs
  | ready_cmd user =>
      orders <- call (list_orders_ready A user) ;;
      print_all orders
  | no_command =>
      call (print usage) ;;
      main_raise AttributeError
  end.

End CommandLine.

(** An archive whose web service cannot be reached. *)
Definition unreachable_archive : archive := {|
  wsdl := fun _ => Raise TransportError;
  reply_list := fun _ => Ok [];
  reply_text := fun _ => Ok "";
  ftp_accepts := fun _ _ => true;
  ftp_listing := fun _ => Some [];
  ftp_transfer := fun _ _ => ([], true)
|}.

(** The course of every function on the web service: a client is created,
    then one operation is invoked; [answer] is what the function makes of
    the reply. *)
Definition web_call {X} (A : archive) (c : soap_call) (answer : result X) (w : world)
  : world * result X :=
  match wsdl A _ARM_WS_URL with
  | Raise e => (logged (OpenClient _ARM_WS_URL) w, Raise e)
  | Ok _ => (logged (Invoke c) (logged (OpenClient _ARM_WS_URL) w), answer)
  end.

(** The world with more lines on standard output. *)
Definition with_output (w : world) (lines : list string) : world :=
  World (ws_trace w) (ftp_trace w) (ftp_open w) (cwd_files w) (stdout w ++ lines).

(** * Properties *)

(** ** Running the web-service functions *)

Ltac run_M :=
  unfold bind, ret, raise, lift, log_ws, Client, service_list, service_text,
    _init_client, logged; simpl.

Section WebService.
Context `{PyRuntime} (A : archive).

Lemma no_data_iff (files : list string) :
  no_data files = true ↔ files = ["No data files found"].
Proof.
  unfold no_data. split.
  - intros [Hl He]%andb_prop.
    destruct files as [|f [|g fs]]; try discriminate.
    simpl in He. apply String.eqb_eq in He. by subst.
  - intros ->. reflexivity.
Qed.

Lemma list_datastreams_run (pattern : option string) (w : world) :
  list_datastreams A pattern w =
  match wsdl A _ARM_WS_URL with
  | Raise e => (logged (OpenClient _ARM_WS_URL) w, Raise e)
  | Ok _ =>
      let w' := logged (Invoke getDataStreams) (logged (OpenClient _ARM_WS_URL) w) in
      (w', rbind (reply_list A getDataStreams) (fun datastreams =>
           rbind (_regex_filter datastreams pattern) (fun l => Ok (sorted l))))
  end.
Proof.
  unfold list_datastreams. run_M.
  destruct (wsdl A _ARM_WS_URL); [|done].
  destruct (reply_list A getDataStreams) as [ds|]; [|done]. simpl.
  by destruct (_regex_filter ds pattern).
Qed.

Lemma list_files_run (datastreams : str_or_list) (startdate : string)
    (enddate pattern : option string) (w : world) :
  list_files A datastreams startdate enddate pattern w =
  match wsdl A _ARM_WS_URL with
  | Raise e => (logged (OpenClient _ARM_WS_URL) w, Raise e)
  | Ok _ =>
      match end_date_used startdate enddate with
      | Raise e => (logged (OpenClient _ARM_WS_URL) w, Raise e)
      | Ok e =>
          let call := getFiles datastreams startdate e in
          (logged (Invoke call) (logged (OpenClient _ARM_WS_URL) w),
           rbind (reply_list A call) (fun files =>
           if no_data files then Ok []
           else rbind (_regex_filter files pattern) (fun l => Ok (sorted l))))
      end
  end.
Proof.
  unfold list_files, end_date_used. run_M.
  destruct (wsdl A _ARM_WS_URL); [|done].
  destruct enddate as [e|]; simpl.
  - destruct (reply_list A _) as [fs|]; [|done]. simpl.
    fold (no_data fs). destruct (no_data fs); [done|].
    by destruct (_regex_filter fs pattern).
  - destruct (DateTime.strptime startdate) as [dt|]; [|done]. simpl.
    destruct (DateTime.add_days dt 1) as [nx|]; [|done]. simpl.
    destruct (DateTime.strftime strftime_min_year nx) as [e|]; [|done]. simpl.
    destruct (reply_list A _) as [fs|]; [|done]. simpl.
    fold (no_data fs). destruct (no_data fs); [done|].
    by destruct (_regex_filter fs pattern).
Qed.

End WebService.


(** ** Filtering and sorting *)

Lemma sorted_StronglySorted (l : list string) : StronglySorted String.le (sorted l).
Proof. apply StronglySorted_merge_sort; apply _. Qed.

Lemma sorted_Permutation (l : list string) : sorted l ≡ₚ l.
Proof. apply merge_sort_Permutation. Qed.

Lemma sorted_unique (l1 l2 : list string) : l1 ≡ₚ l2 → sorted l1 = sorted l2.
Proof.
  intros Hp. apply (StronglySorted_unique String.le).
  - apply sorted_StronglySorted.
  - apply sorted_StronglySorted.
  - by rewrite !sorted_Permutation.
Qed.

Lemma filter_Permutation_list {X} (f : X → bool) (l1 l2 : list X) :
  l1 ≡ₚ l2 → List.filter f l1 ≡ₚ List.filter f l2.
Proof.
  induction 1 as [|x l1 l2 _ IH|x y l|l1 l2 l3 _ IH1 _ IH2]; simpl.
  - done.
  - destruct (f x); [by constructor|done].
  - destruct (f x), (f y); try done. apply perm_swap.
  - by etrans.
Qed.

Lemma normalized_Permutation (l1 l2 : list string) :
  l1 ≡ₚ l2 → normalized l1 ≡ₚ normalized l2.
Proof.
  intros Hp. unfold normalized.
  destruct (no_data l1) eqn:E1.
  - apply no_data_iff in E1. subst l1.
    apply Permutation_singleton_l in Hp. by subst l2.
  - destruct (no_data l2) eqn:E2; [|done].
    apply no_data_iff in E2. subst l2.
    apply Permutation_singleton_r in Hp. subst l1. discriminate.
Qed.

Section Listings.
Context `{PyRuntime}.

Lemma filter_matches (pattern : string) (p : re_pattern) (l : list string) :
  re_compile pattern = Ok p →
  List.filter (re_search p) l = List.filter (matches_somewhere (Some pattern)) l.
Proof. intros Hc. unfold matches_somewhere. by rewrite Hc. Qed.

Lemma filter_all (l : list string) : List.filter (matches_somewhere None) l = l.
Proof. induction l as [|x l IH]; simpl; congruence. Qed.

Lemma listing_of_sorted (pattern : option string) (entries : list string) :
  listing_of pattern entries
    (rbind (_regex_filter entries pattern) (fun l => Ok (sorted l))).
Proof.
  assert (Hok : listing_of pattern entries
            (Ok (sorted (List.filter (matches_somewhere pattern) entries)))).
  { split; [apply sorted_StronglySorted|]. split; [apply sorted_Permutation|].
    intros entries' Hp. by apply sorted_unique, filter_Permutation_list. }
  destruct pattern as [pat|]; simpl.
  - destruct (re_compile pat) as [p|e] eqn:Hc; simpl.
    + by rewrite (filter_matches pat p).
    + by exists pat.
  - by rewrite filter_all in Hok.
Qed.

End Listings.

(** C8: filtering with no pattern is the identity: [_regex_filter items None]
    returns [items] itself, same elements in the same order. *)
Theorem C8_regex_filter_no_pattern `{PyRuntime} (items : list string) :
  _regex_filter items None = Ok items.
Proof. reflexivity. Qed.

(** C6: [valid_user] and [order_clear] answer [True] exactly when the reply
    of the service is the text "true", and [False] for every other text. *)
Theorem C6_true_is_the_only_true (A : archive) (user : string) (order_id : str_or_int)
    (reply : string) (w : world) :
  wsdl A _ARM_WS_URL = Ok tt →
  (reply_text A (isValidUser user) = Ok reply →
   snd (valid_user A user w) = Ok (bool_decide (reply = "true")))
  ∧ (reply_text A (clearOrder user order_id) = Ok reply →
     snd (order_clear A user order_id w) = Ok (bool_decide (reply = "true"))).
Proof.
  intros Hw. split; intros Hr.
  - unfold valid_user. run_M. rewrite Hw, Hr. simpl.
    destruct (String.eqb_spec reply "true") as [->|Hne]; simpl.
    + done.
    + by rewrite bool_decide_eq_false_2.
  - unfold order_clear. run_M. rewrite Hw, Hr. simpl.
    destruct (String.eqb_spec reply "true") as [->|Hne]; simpl.
    + done.
    + by rewrite bool_decide_eq_false_2.
Qed.

Lemma C6_witness :
  let A := toy_archive [] "True" [] "" in
  snd (valid_user A "jdoe" world0) = Ok false
  ∧ snd (order_clear A "jdoe" (an_int 12345) world0) = Ok false.
Proof.
  intros A.
  destruct (C6_true_is_the_only_true A "jdoe" (an_int 12345) "True" world0 eq_refl)
    as [Hv Hc].
  split; [exact (Hv eq_refl)|exact (Hc eq_refl)].
Defined.

Example valid_user_replies :
  snd (valid_user (toy_archive [] "true" [] "") "jdoe" world0) = Ok true
  ∧ snd (valid_user (toy_archive [] "false" [] "") "jdoe" world0) = Ok false
  ∧ snd (valid_user (toy_archive [] "" [] "") "jdoe" world0) = Ok false
  ∧ snd (order_clear (toy_archive [] "true" [] "") "jdoe" (an_str "12345") world0) = Ok true
  ∧ snd (order_clear (toy_archive [] "TRUE" [] "") "jdoe" (an_str "12345") world0) = Ok false.
Proof. by vm_compute. Qed.

(** C5: in [list_files] only the reply that is exactly the one-element list
    ["No data files found"] becomes the empty list; every other reply, also
    a longer one that starts with that text, goes unchanged through
    filtering and sorting. *)
Theorem C5_sentinel_only_alone `{PyRuntime} (A : archive) (datastreams : str_or_list)
    (startdate : string) (enddate pattern : option string) (e : string)
    (files : list string) (w : world) :
  wsdl A _ARM_WS_URL = Ok tt →
  end_date_used startdate enddate = Ok e →
  reply_list A (getFiles datastreams startdate e) = Ok files →
  snd (list_files A datastreams startdate enddate pattern w) =
    if decide (files = ["No data files found"]) then Ok []
    else rbind (_regex_filter files pattern) (fun l => Ok (sorted l)).
Proof.
  intros Hw He Hr. rewrite list_files_run, Hw, He. simpl. rewrite Hr. simpl.
  destruct (no_data files) eqn:E.
  - apply no_data_iff in E. by rewrite decide_True.
  - rewrite decide_False; [done|]. intros ->. discriminate.
Qed.

Lemma C5_witness :
  snd (list_files (H := literal_runtime)
         (toy_archive ["No data files found"; "a.dat"] "" [] "")
         (a_str "sgpmetE13.b1") "20200101" (Some "20200102") None world0)
  = Ok ["No data files found"; "a.dat"].
Proof.
  exact (C5_sentinel_only_alone (H := literal_runtime)
           (toy_archive ["No data files found"; "a.dat"] "" [] "")
           (a_str "sgpmetE13.b1") "20200101" (Some "20200102") None "20200102"
           ["No data files found"; "a.dat"] world0 eq_refl eq_refl eq_refl).
Defined.

Example list_files_sentinel :
  snd (list_files (H := literal_runtime) (toy_archive ["No data files found"] "" [] "")
         (a_str "sgpmetE13.b1") "20200101" None (Some "dat") world0) = Ok []
  ∧ snd (list_files (H := literal_runtime) (toy_archive ["a.dat"] "" [] "")
         (a_str "sgpmetE13.b1") "20200101" None None world0) = Ok ["a.dat"].
Proof. by vm_compute. Qed.

(** C2: whatever the service replies and whatever the pattern,
    [list_datastreams] and [list_files] return a list in ascending
    lexicographic order that holds exactly the entries of the reply (for
    [list_files]: of the normalized reply) in which the pattern finds a
    match, and that does not depend on the order of the reply; the only
    other outcome is the error of [re.compile] on the pattern. *)
Theorem C2_listings_sorted_and_filtered `{PyRuntime} (A : archive)
    (datastreams : str_or_list) (startdate : string) (enddate pattern : option string)
    (e : string) (names files : list string) (w : world) :
  wsdl A _ARM_WS_URL = Ok tt →
  reply_list A getDataStreams = Ok names →
  end_date_used startdate enddate = Ok e →
  reply_list A (getFiles datastreams startdate e) = Ok files →
  listing_of pattern names (snd (list_datastreams A pattern w))
  ∧ listing_of pattern (normalized files)
      (snd (list_files A datastreams startdate enddate pattern w)).
Proof.
  intros Hw Hn He Hf. split.
  - rewrite list_datastreams_run, Hw. simpl. rewrite Hn. simpl.
    apply listing_of_sorted.
  - rewrite list_files_run, Hw, He. simpl. rewrite Hf. simpl.
    unfold normalized. destruct (no_data files).
    + split; [constructor|]. split; [done|].
      intros entries' ->%Permutation_nil_r. reflexivity.
    + apply listing_of_sorted.
Qed.

Lemma C2_witness :
  let A := toy_archive ["b.nc"; "c.dat"; "a.nc"; "b.nc"] "" [] "" in
  listing_of (H := literal_runtime) (Some "nc") ["b.nc"; "c.dat"; "a.nc"; "b.nc"]
    (Ok ["a.nc"; "b.nc"; "b.nc"])
  ∧ listing_of (H := literal_runtime) (Some "nc") ["b.nc"; "c.dat"; "a.nc"; "b.nc"]
    (Ok ["a.nc"; "b.nc"; "b.nc"]).
Proof.
  intros A.
  exact (C2_listings_sorted_and_filtered (H := literal_runtime) A
           (a_str "sgpmetE13.b1") "20200101" None (Some "nc") "20200102"
           ["b.nc"; "c.dat"; "a.nc"; "b.nc"] ["b.nc"; "c.dat"; "a.nc"; "b.nc"] world0
           eq_refl eq_refl eq_refl eq_refl).
Defined.


(** ** Running the FTP functions *)

#[local] Arguments String.append !s1 s2 : simpl nomatch.

Lemma string_app_nil_r (s : string) : s +:+ "" = s.
Proof. induction s as [|c s IH]; simpl; congruence. Qed.

Lemma string_app_assoc (s1 s2 s3 : string) : (s1 +:+ s2) +:+ s3 = s1 +:+ (s2 +:+ s3).
Proof. induction s1 as [|c s1 IH]; simpl; congruence. Qed.

Ltac run_ftp :=
  cbv [bind ret raise lift FTP ftp_login ftp_cwd ftp_nlst ftp_quit
       voidcmd send set_open open_wb write print with_ftp
       ws_trace ftp_trace ftp_open cwd_files stdout].

Section Ftp.
Context (A : archive).

(** The blocks handed to [write] end up, in order, after what the file holds. *)
Lemma write_blocks (name : string) (blocks : list string) :
  ∀ (w : world) (c : string),
    cwd_files w !! name = Some c →
    for_each (write name) blocks w =
      (World (ws_trace w) (ftp_trace w) (ftp_open w)
         (<[name := c +:+ join blocks]> (cwd_files w)) (stdout w), Ok tt).
Proof.
  induction blocks as [|b bs IH]; intros w c Hc; simpl.
  - rewrite string_app_nil_r, insert_id by done. by destruct w.
  - unfold bind at 1. unfold write at 1. rewrite Hc. simpl.
    erewrite IH by (simpl; apply lookup_insert_eq). simpl.
    by rewrite insert_insert_eq, string_app_assoc.
Qed.

Lemma download_one_run (name : string) (w : world) :
  download_one A name w =
    (World (ws_trace w) (ftp_trace w ++ [retr name]) (ftp_open w)
       (<[name := delivered A (ftp_trace w) name]> (cwd_files w))
       (stdout w ++ [announce name]),
     if snd (ftp_transfer A (ftp_trace w) ("RETR " +:+ name)) then Ok tt
     else Raise ftp_error).
Proof.
  unfold download_one, delivered, ftp_retrbinary, retr, announce.
  unfold bind at 1 2. unfold print at 1, open_wb at 1.
  cbn [ws_trace ftp_trace ftp_open cwd_files stdout].
  destruct (ftp_transfer A (ftp_trace w) ("RETR " +:+ name)) as [blocks complete].
  unfold bind at 1. unfold send at 1.
  cbn [ws_trace ftp_trace ftp_open cwd_files stdout fst snd].
  unfold bind at 1.
  erewrite write_blocks by (cbn [cwd_files]; apply lookup_insert_eq).
  cbn [ws_trace ftp_trace ftp_open cwd_files stdout].
  rewrite insert_insert_eq. by destruct complete.
Qed.

Lemma download_loop_run (names : list string) :
  ∀ w : world,
    for_each (download_one A) names w =
      let '(done, ok) := transferred A (ftp_trace w) names in
      (World (ws_trace w) (ftp_trace w ++ (retr <$> done)) (ftp_open w)
         (stored A (ftp_trace w) done (cwd_files w))
         (stdout w ++ (announce <$> done)),
       if ok then Ok tt else Raise ftp_error).
Proof.
  induction names as [|name names IH]; intros w.
  - simpl. unfold ret. rewrite !app_nil_r. by destruct w.
  - cbn [for_each transferred]. unfold bind at 1. rewrite download_one_run.
    destruct (ftp_transfer A (ftp_trace w) ("RETR " +:+ name)) as [blocks [|]];
      cbn [snd].
    + rewrite IH. cbn [ws_trace ftp_trace ftp_open cwd_files stdout].
      destruct (transferred A (ftp_trace w ++ [retr name]) names) as [got ok].
      cbn [stored fmap list_fmap]. by rewrite <- !app_assoc.
    + done.
Qed.

Lemma order_download_run (user : string) (order_id : str_or_int)
    (files : option str_or_list) (w : world) :
  order_download A user order_id files w =
    let t := ftp_trace w in
    let n := ftp_open w in
    let ss := session_start user order_id in
    if negb (ftp_accepts A t (CONNECT _ARM_FTP)) then
      (with_ftp w (take 1 ss) n, Raise ftp_error)
    else if negb (ftp_accepts A (t ++ take 1 ss) LOGIN) then
      (with_ftp w (take 2 ss) (S n), Raise ftp_error)
    else if negb (ftp_accepts A (t ++ take 2 ss) (CWD user)) then
      (with_ftp w (take 3 ss) (S n), Raise ftp_error)
    else if negb (ftp_accepts A (t ++ take 3 ss) (CWD (str order_id))) then
      (with_ftp w ss (S n), Raise ftp_error)
    else
      let pre := preamble user order_id files in
      match requested A files (t ++ ss) with
      | None => (with_ftp w pre (S n), Raise ftp_error)
      | Some names =>
          let '(done, ok) := transferred A (t ++ pre) names in
          let dir := stored A (t ++ pre) done (cwd_files w) in
          let out := stdout w ++ (announce <$> done) in
          let cmds := pre ++ (retr <$> done) in
          if ok then
            if ftp_accepts A (t ++ cmds) QUIT then
              (World (ws_trace w) (t ++ cmds ++ [QUIT]) n dir out, Ok tt)
            else (World (ws_trace w) (t ++ cmds ++ [QUIT]) (S n) dir out, Raise ftp_error)
          else (World (ws_trace w) (t ++ cmds) (S n) dir out, Raise ftp_error)
      end.
Proof.
  unfold order_download, preamble, session_start.
  cbn [take]. cbv zeta.
  unfold bind at 1. unfold FTP at 1. unfold bind at 1. unfold voidcmd at 1.
  unfold bind at 1. unfold send at 1.
  destruct (ftp_accepts A (ftp_trace w) (CONNECT _ARM_FTP)); cbn [negb]; [|done].
  unfold ret at 1. unfold set_open at 1.
  unfold bind at 1. unfold ftp_login at 1, voidcmd at 1. unfold bind at 1.
  unfold send at 1. cbn [ws_trace ftp_trace ftp_open cwd_files stdout].
  destruct (ftp_accepts A (ftp_trace w ++ [_]) LOGIN); cbn [negb];
    [|unfold raise, with_ftp; by rewrite <- !app_assoc].
  unfold ret at 1.
  unfold bind at 1. unfold ftp_cwd at 1, voidcmd at 1. unfold bind at 1.
  unfold send at 1. cbn [ws_trace ftp_trace ftp_open cwd_files stdout].
  rewrite <- !app_assoc. cbn [app].
  destruct (ftp_accepts A (ftp_trace w ++ [_; _]) (CWD user)); cbn [negb];
    [|unfold raise, with_ftp; by rewrite <- ?app_assoc].
  unfold ret at 1.
  unfold bind at 1. unfold ftp_cwd at 1, voidcmd at 1. unfold bind at 1.
  unfold send at 1. cbn [ws_trace ftp_trace ftp_open cwd_files stdout].
  rewrite <- !app_assoc. cbn [app].
  destruct (ftp_accepts A (ftp_trace w ++ [_; _; _]) (CWD (str order_id)));
    cbn [negb]; [|unfold raise, with_ftp; by rewrite <- ?app_assoc].
  unfold ret at 1.
  assert (Hrest : ∀ (names : list string) (w1 : world),
    (for_each (download_one A) names ;; ftp_quit A ;; ret tt) w1 =
      let '(done, ok) := transferred A (ftp_trace w1) names in
      let dir := stored A (ftp_trace w1) done (cwd_files w1) in
      let out := stdout w1 ++ (announce <$> done) in
      let t1 := ftp_trace w1 ++ (retr <$> done) in
      if ok then
        if ftp_accepts A t1 QUIT then
          (World (ws_trace w1) (t1 ++ [QUIT]) (Nat.pred (ftp_open w1)) dir out, Ok tt)
        else (World (ws_trace w1) (t1 ++ [QUIT]) (ftp_open w1) dir out, Raise ftp_error)
      else (World (ws_trace w1) t1 (ftp_open w1) dir out, Raise ftp_error)).
  { intros names w1. unfold bind at 1. rewrite download_loop_run.
    destruct (transferred A (ftp_trace w1) names) as [got [|]]; [|done].
    run_ftp. by destruct (ftp_accepts A _ QUIT). }
  destruct files as [[name|names]|]; cbn [requested].
  - unfold bind at 1. unfold ret at 1. rewrite Hrest.
    cbn [ws_trace ftp_trace ftp_open cwd_files stdout Nat.pred].
    destruct (transferred A _ [name]) as [got [|]];
      rewrite <- ?app_assoc; by cbn [app].
  - unfold bind at 1. unfold ret at 1. rewrite Hrest.
    cbn [ws_trace ftp_trace ftp_open cwd_files stdout Nat.pred].
    destruct (transferred A _ names) as [got [|]];
      rewrite <- ?app_assoc; by cbn [app].
  - unfold bind at 1. unfold bind at 1. unfold ftp_nlst at 1.
    cbn [ws_trace ftp_trace ftp_open cwd_files stdout].
    destruct (ftp_listing A _) as [names|];
      [|unfold with_ftp; by rewrite <- ?app_assoc].
    unfold ret at 1. rewrite Hrest.
    cbn [ws_trace ftp_trace ftp_open cwd_files stdout Nat.pred].
    rewrite <- !app_assoc. cbn [app].
    destruct (transferred A _ names) as [got [|]];
      rewrite <- ?app_assoc; by cbn [app].
Qed.

End Ftp.


(** ** What the download loop reaches and what it leaves on disk *)

Section Transfers.
Context (A : archive).

Lemma transferred_prefix (names : list string) :
  ∀ (hist : list ftp_command) (got : list string) (ok : bool),
    transferred A hist names = (got, ok) →
    (got `prefix_of` names) ∧ (ok = true → got = names).
Proof.
  induction names as [|name names IH]; intros hist got ok; simpl.
  - intros [= <- <-]. done.
  - destruct (ftp_transfer A hist _) as [blocks [|]]; simpl.
    + destruct (transferred A (hist ++ [retr name]) names) as [got' ok'] eqn:E.
      intros [= <- <-]. destruct (IH _ _ _ E) as [Hp Hall].
      split; [by apply prefix_cons|]. intros Hok. by rewrite Hall.
    + intros [= <- <-]. split; [|done]. by apply prefix_cons, prefix_nil.
Qed.

Lemma stored_other (got : list string) (name : string) :
  ∀ (hist : list ftp_command) (dir : gmap string string),
    name ∉ got → stored A hist got dir !! name = dir !! name.
Proof.
  induction got as [|x got IH]; intros hist dir Hn; simpl; [done|].
  apply not_elem_of_cons in Hn as [Hne Hn].
  rewrite IH by done. by apply lookup_insert_ne.
Qed.

(** A file gone through holds what its last transfer delivered. *)
Lemma stored_last (got : list string) (name : string) :
  ∀ (hist : list ftp_command) (dir : gmap string string),
    name ∈ got →
    ∃ before after,
      got = before ++ (name :: after) ∧ (name ∉ after)
      ∧ stored A hist got dir !! name
        = Some (delivered A (hist ++ (retr <$> before)) name).
Proof.
  induction got as [|x got IH]; intros hist dir Hin; [by apply elem_of_nil in Hin|].
  simpl. destruct (decide (name ∈ got)) as [Hg|Hg].
  - destruct (IH (hist ++ [retr x]) (<[x := delivered A hist x]> dir) Hg)
      as (before & after & -> & Hna & Hl).
    exists (x :: before), after. split; [done|]. split; [done|].
    rewrite Hl. simpl. by rewrite <- app_assoc.
  - apply elem_of_cons in Hin as [->|]; [|done].
    exists [], got. split; [done|]. split; [done|].
    rewrite stored_other by done. simpl. rewrite app_nil_r.
    apply lookup_insert_eq.
Qed.

End Transfers.

Lemma retr_inj (x y : string) : retr x = retr y → x = y.
Proof. unfold retr. intros [= Hxy]. done. Qed.

Lemma elem_of_retr (name : string) (names : list string) :
  retr name ∈ (retr <$> names) ↔ name ∈ names.
Proof.
  rewrite list_elem_of_fmap. split.
  - intros (y & Heq & Hy). by rewrite (retr_inj _ _ Heq).
  - intros Hn. by exists name.
Qed.

Lemma retr_not_in_preamble (name user : string) (order_id : str_or_int)
    (files : option str_or_list) (n : nat) :
  retr name ∉ take n (preamble user order_id files).
Proof.
  intros Hin. apply elem_of_take in Hin as (i & Hin & _).
  apply list_elem_of_lookup_2 in Hin.
  unfold preamble, session_start, retr in Hin.
  apply elem_of_app in Hin as [Hin|Hin].
  - repeat (apply elem_of_cons in Hin as [Hin|Hin]; [discriminate|]).
    by apply elem_of_nil in Hin.
  - destruct files; [by apply elem_of_nil in Hin|].
    apply elem_of_cons in Hin as [Hin|Hin]; [discriminate|].
    by apply elem_of_nil in Hin.
Qed.

Section Outcome.
Context (A : archive).

(** Every run of [order_download] at a glance: the commands sent before
    the first retrieval, the files gone through, whether QUIT was sent, the
    connections left open and the result; what the working directory held
    before only shows in the files not gone through. *)
Lemma order_download_outcome (user : string) (order_id : str_or_int)
    (files : option str_or_list) (w : world) :
  ∃ (sent : list ftp_command) (got : list string) (closing : list ftp_command)
    (n : nat) (r : result unit),
    (∀ dir : gmap string string,
        order_download A user order_id files (with_dir w dir) =
          (World (ws_trace w) (ftp_trace w ++ sent ++ (retr <$> got) ++ closing) n
             (stored A (ftp_trace w ++ sent) got dir)
             (stdout w ++ (announce <$> got)), r))
    ∧ (∀ name, retr name ∉ sent)
    ∧ (closing = [] ∨ closing = [QUIT])
    ∧ match r with
      | Ok _ =>
          sent = preamble user order_id files ∧ closing = [QUIT]
          ∧ requested A files (ftp_trace w ++ session_start user order_id) = Some got
          ∧ n = ftp_open w
      | Raise e =>
          e = ftp_error
          ∧ n = (if ftp_accepts A (ftp_trace w) (CONNECT _ARM_FTP)
                 then S (ftp_open w) else ftp_open w)
      end.
Proof.
  pose (ss := session_start user order_id).
  pose (pre := preamble user order_id files).
  assert (Hpre : ∀ k name, retr name ∉ take k pre)
    by (intros; apply retr_not_in_preamble).
  assert (Hss : ∀ k, (k ≤ 4)%nat → take k ss = take k pre).
  { intros k Hk. unfold pre, preamble. fold ss. by rewrite take_app_le. }
  destruct (ftp_accepts A (ftp_trace w) (CONNECT _ARM_FTP)) eqn:E1; cycle 1.
  { exists (take 1 ss), [], [], (ftp_open w), (Raise ftp_error).
    split; [|split; [rewrite Hss by lia; apply Hpre|by auto]].
    intros dir. rewrite order_download_run. cbv zeta.
    cbn [with_dir ftp_trace ftp_open]. rewrite E1. cbn [negb].
    unfold with_ftp. cbn [ws_trace ftp_trace cwd_files stdout stored fmap list_fmap].
    by rewrite !app_nil_r. }
  destruct (ftp_accepts A (ftp_trace w ++ take 1 ss) LOGIN) eqn:E2; cycle 1.
  { exists (take 2 ss), [], [], (S (ftp_open w)), (Raise ftp_error).
    split; [|split; [rewrite Hss by lia; apply Hpre|by auto]].
    intros dir. rewrite order_download_run. cbv zeta.
    cbn [with_dir ftp_trace ftp_open]. fold ss. rewrite E1, E2. cbn [negb].
    unfold with_ftp. cbn [ws_trace ftp_trace cwd_files stdout stored fmap list_fmap].
    by rewrite !app_nil_r. }
  destruct (ftp_accepts A (ftp_trace w ++ take 2 ss) (CWD user)) eqn:E3; cycle 1.
  { exists (take 3 ss), [], [], (S (ftp_open w)), (Raise ftp_error).
    split; [|split; [rewrite Hss by lia; apply Hpre|by auto]].
    intros dir. rewrite order_download_run. cbv zeta.
    cbn [with_dir ftp_trace ftp_open]. fold ss. rewrite E1, E2, E3. cbn [negb].
    unfold with_ftp. cbn [ws_trace ftp_trace cwd_files stdout stored fmap list_fmap].
    by rewrite !app_nil_r. }
  destruct (ftp_accepts A (ftp_trace w ++ take 3 ss) (CWD (str order_id))) eqn:E4;
    cycle 1.
  { exists (take 4 ss), [], [], (S (ftp_open w)), (Raise ftp_error).
    split; [|split; [rewrite Hss by lia; apply Hpre|by auto]].
    intros dir. rewrite order_download_run. cbv zeta.
    cbn [with_dir ftp_trace ftp_open]. fold ss. rewrite E1, E2, E3, E4. cbn [negb].
    unfold with_ftp. cbn [ws_trace ftp_trace cwd_files stdout stored fmap list_fmap].
    by rewrite !app_nil_r. }
  assert (Hall : ∀ name, retr name ∉ pre).
  { intros name. rewrite <- (take_ge pre 5); [apply Hpre|].
    unfold pre, preamble, session_start. destruct files; simpl; lia. }
  destruct (requested A files (ftp_trace w ++ ss)) as [names|] eqn:Er; cycle 1.
  { exists pre, [], [], (S (ftp_open w)), (Raise ftp_error).
    split; [|split; [apply Hall|by auto]].
    intros dir. rewrite order_download_run. cbv zeta.
    cbn [with_dir ftp_trace ftp_open]. fold ss pre. rewrite E1, E2, E3, E4, Er.
    cbn [negb]. unfold with_ftp.
    cbn [ws_trace ftp_trace cwd_files stdout stored fmap list_fmap].
    by rewrite !app_nil_r. }
  destruct (transferred A (ftp_trace w ++ pre) names) as [got ok] eqn:Et.
  destruct ok; cycle 1.
  { exists pre, got, [], (S (ftp_open w)), (Raise ftp_error).
    split; [|split; [apply Hall|by auto]].
    intros dir. rewrite order_download_run. cbv zeta.
    cbn [with_dir ftp_trace ftp_open cwd_files stdout ws_trace].
    fold ss pre. rewrite E1, E2, E3, E4, Er, Et. cbn [negb].
    by rewrite !app_nil_r. }
  pose proof (transferred_prefix A _ _ _ _ Et) as [_ Hgot].
  specialize (Hgot eq_refl). subst got.
  destruct (ftp_accepts A (ftp_trace w ++ pre ++ (retr <$> names)) QUIT) eqn:E5.
  - exists pre, names, [QUIT], (ftp_open w), (Ok tt).
    split; [|split; [apply Hall|by auto]].
    intros dir. rewrite order_download_run. cbv zeta.
    cbn [with_dir ftp_trace ftp_open cwd_files stdout ws_trace].
    fold ss pre. rewrite E1, E2, E3, E4, Er, Et, E5. cbn [negb].
    by rewrite <- !app_assoc.
  - exists pre, names, [QUIT], (S (ftp_open w)), (Raise ftp_error).
    split; [|split; [apply Hall|by auto]].
    intros dir. rewrite order_download_run. cbv zeta.
    cbn [with_dir ftp_trace ftp_open cwd_files stdout ws_trace].
    fold ss pre. rewrite E1, E2, E3, E4, Er, Et, E5. cbn [negb].
    by rewrite <- !app_assoc.
Qed.

End Outcome.


Lemma with_dir_same (w : world) : with_dir w (cwd_files w) = w.
Proof. by destruct w. Qed.

(** ** The bulk transfer functions *)



Example order_download_listing :
  ftp_trace (fst (order_download (toy_archive [] "" ["f1.nc"; "f2.nc"] "")
                    "jdoe" (an_int 12345) None world0))
  = [CONNECT _ARM_FTP; LOGIN; CWD "jdoe"; CWD "12345"; NLST;
     RETRBINARY "RETR f1.nc"; RETRBINARY "RETR f2.nc"; QUIT].
Proof. by vm_compute. Qed.

Example order_download_one_name :
  ftp_trace (fst (order_download (toy_archive [] "" ["f1.nc"; "f2.nc"] "")
                    "jdoe" (an_str "12345") (Some (a_str "f2.nc")) world0))
  = [CONNECT _ARM_FTP; LOGIN; CWD "jdoe"; CWD "12345"; RETRBINARY "RETR f2.nc"; QUIT].
Proof. by vm_compute. Qed.

Example order_download_names :
  ftp_trace (fst (order_download (toy_archive [] "" ["f1.nc"; "f2.nc"] "")
                    "jdoe" (an_str "12345") (Some (a_list ["b"; "a"; "b"])) world0))
  = [CONNECT _ARM_FTP; LOGIN; CWD "jdoe"; CWD "12345";
     RETRBINARY "RETR b"; RETRBINARY "RETR a"; RETRBINARY "RETR b"; QUIT].
Proof. by vm_compute. Qed.

(** C1, as the code has it: [order_download] sends QUIT and closes its
    connection exactly on the runs that return; on every run that raises
    after the connection was made (login or a directory change refused,
    listing refused, a transfer broken, QUIT refused) the error goes to
    the caller and the connection stays open. *)
Theorem C1_order_download_closes_only_on_return (A : archive) (user : string)
    (order_id : str_or_int) (files : option str_or_list) (w : world) :
  let run := order_download A user order_id files w in
  match snd run with
  | Ok _ =>
      ftp_open (fst run) = ftp_open w ∧ last (ftp_trace (fst run)) = Some QUIT
  | Raise e =>
      e = ftp_error
      ∧ ftp_open (fst run) =
          (if ftp_accepts A (ftp_trace w) (CONNECT _ARM_FTP)
           then S (ftp_open w) else ftp_open w)
  end.
Proof.
  destruct (order_download_outcome A user order_id files w)
    as (sent & got & closing & n & r & Hout & _ & _ & Hr).
  specialize (Hout (cwd_files w)). rewrite with_dir_same in Hout.
  cbv zeta. rewrite Hout. cbn [fst snd ftp_open ftp_trace].
  destruct r as [[]|e]; [|done].
  destruct Hr as (_ & -> & _ & ->). split; [done|].
  by rewrite !app_assoc, last_snoc.
Qed.

(** C1 as stated fails: a transfer that breaks leaves the session of
    [order_download] open, and [list_order_files] never closes its own. *)
Lemma C1_counterexample :
  let A := toy_archive [] "" ["f1.nc"; "f2.nc"] "f2.nc" in
  let download := order_download A "jdoe" (an_int 12345) None world0 in
  let listing := list_order_files A "jdoe" (an_int 12345) world0 in
  (snd download = Raise ftp_error
   ∧ ftp_trace (fst download)
     = [CONNECT _ARM_FTP; LOGIN; CWD "jdoe"; CWD "12345"; NLST;
        RETRBINARY "RETR f1.nc"; RETRBINARY "RETR f2.nc"]
   ∧ ftp_open (fst download) = 1%nat)
  ∧ (snd listing = Ok ["f1.nc"; "f2.nc"]
     ∧ ftp_trace (fst listing) = [CONNECT _ARM_FTP; LOGIN; CWD "jdoe"; CWD "12345"; NLST]
     ∧ ftp_open (fst listing) = 1%nat).
Proof. by vm_compute. Qed.

(** C10: a file [order_download] starts to retrieve is opened under its
    remote name for writing from scratch: whatever the working directory
    held under that name, it holds afterwards what the last transfer for
    that name delivered, and the run (result, commands, output) is the one
    it would have been with any other content of the directory: the old
    file is neither kept nor reported. *)
Theorem C10_download_overwrites (A : archive) (user : string)
    (order_id : str_or_int) (files : option str_or_list) (w : world)
    (name old : string) (cmds : list ftp_command) :
  let run := order_download A user order_id files w in
  cwd_files w !! name = Some old →
  ftp_trace (fst run) = ftp_trace w ++ cmds →
  retr name ∈ cmds →
  (∃ before after,
      cmds = before ++ (retr name :: after) ∧ (retr name ∉ after)
      ∧ cwd_files (fst run) !! name = Some (delivered A (ftp_trace w ++ before) name))
  ∧ ∀ dir,
      let run' := order_download A user order_id files (with_dir w dir) in
      snd run' = snd run
      ∧ ftp_trace (fst run') = ftp_trace (fst run)
      ∧ stdout (fst run') = stdout (fst run)
      ∧ cwd_files (fst run') !! name = cwd_files (fst run) !! name.
Proof.
  cbv zeta. intros _ Htrace Hin.
  destruct (order_download_outcome A user order_id files w)
    as (sent & got & closing & n & r & Hout & Hsent & Hclosing & _).
  pose proof (Hout (cwd_files w)) as Hrun. rewrite with_dir_same in Hrun.
  rewrite Hrun in Htrace |- *. cbn [fst snd ftp_trace cwd_files stdout] in *.
  apply app_inv_head in Htrace. subst cmds.
  assert (Hgot : name ∈ got).
  { apply elem_of_app in Hin as [Hin|Hin]; [by apply Hsent in Hin|].
    apply elem_of_app in Hin as [Hin|Hin]; [by apply elem_of_retr|].
    destruct Hclosing as [->| ->].
    - by apply elem_of_nil in Hin.
    - apply list_elem_of_singleton in Hin. discriminate. }
  split.
  - destruct (stored_last A got name (ftp_trace w ++ sent) (cwd_files w) Hgot)
      as (before & after & -> & Hafter & Hl).
    exists (sent ++ (retr <$> before)), ((retr <$> after) ++ closing).
    split; [|split].
    + rewrite fmap_app, fmap_cons. by rewrite <- !app_assoc.
    + intros Hin'. apply elem_of_app in Hin' as [Hin'|Hin'].
      * by apply elem_of_retr in Hin'.
      * destruct Hclosing as [->| ->].
        -- by apply elem_of_nil in Hin'.
        -- apply list_elem_of_singleton in Hin'. discriminate.
    + rewrite Hl. by rewrite <- app_assoc.
  - intros dir. rewrite Hout. cbn [fst snd ftp_trace cwd_files stdout].
    split; [done|]. split; [done|]. split; [done|].
    destruct (stored_last A got name (ftp_trace w ++ sent) (cwd_files w) Hgot)
      as (before & after & Heq & Hafter & ->).
    destruct (stored_last A got name (ftp_trace w ++ sent) dir Hgot)
      as (before' & after' & Heq' & Hafter' & ->).
    subst got.
    assert (before' = before) as ->; [|done].
    clear -Heq' Hafter Hafter'.
    revert before' Heq'. induction before as [|x before IH]; intros [|y before']; simpl.
    + done.
    + intros [= <- ->]. exfalso. apply Hafter. apply elem_of_app. right. by left.
    + intros [= -> <-]. exfalso. apply Hafter'. apply elem_of_app. right. by left.
    + intros [= -> Hrest]. f_equal. by apply IH.
Qed.

Lemma C10_witness :
  let A := toy_archive [] "" ["f1.nc"; "f2.nc"] "" in
  let w := with_dir world0 {["f1.nc" := "old content"]} in
  let run := order_download A "jdoe" (an_int 12345) None w in
  let cmds := download_commands "jdoe" (an_int 12345) None ["f1.nc"; "f2.nc"] in
  (∃ before after,
      cmds = before ++ (retr "f1.nc" :: after) ∧ (retr "f1.nc" ∉ after)
      ∧ cwd_files (fst run) !! "f1.nc" = Some (delivered A (ftp_trace w ++ before) "f1.nc"))
  ∧ ∀ dir,
      let run' := order_download A "jdoe" (an_int 12345) None (with_dir w dir) in
      snd run' = snd run
      ∧ ftp_trace (fst run') = ftp_trace (fst run)
      ∧ stdout (fst run') = stdout (fst run)
      ∧ cwd_files (fst run') !! "f1.nc" = cwd_files (fst run) !! "f1.nc".
Proof.
  intros A w run cmds.
  apply (C10_download_overwrites A "jdoe" (an_int 12345) None w "f1.nc" "old content" cmds).
  - by vm_compute.
  - by vm_compute.
  - unfold cmds. vm_compute. do 5 right. left.
Defined.

Example order_download_overwrites :
  let A := toy_archive [] "" ["f1.nc"; "f2.nc"] "f2.nc" in
  let w := with_dir world0 {["f1.nc" := "old content"; "f2.nc" := "older content";
                            "notes.txt" := "kept"]} in
  let run := order_download A "jdoe" (an_int 12345) None w in
  cwd_files (fst run) !! "f1.nc" = Some "<RETR f1.nc>"
  ∧ cwd_files (fst run) !! "f2.nc" = Some ""
  ∧ cwd_files (fst run) !! "notes.txt" = Some "kept"
  ∧ snd run = Raise ftp_error.
Proof. by vm_compute. Qed.


(** ** The matcher against what patterns denote *)

Lemma string_length_app (s1 s2 : string) :
  String.length (s1 +:+ s2) = (String.length s1 + String.length s2)%nat.
Proof. induction s1 as [|c s1 IH]; simpl; congruence. Qed.

Lemma strip_prefix_app (p s : string) : Re.strip_prefix p (p +:+ s) = Some s.
Proof.
  induction p as [|c p IH]; simpl; [by destruct s|].
  by rewrite Ascii.eqb_refl.
Qed.

Lemma strip_prefix_Some (p s s' : string) :
  Re.strip_prefix p s = Some s' → s = p +:+ s'.
Proof.
  revert s. induction p as [|c p IH]; intros s; simpl.
  - destruct s; by intros [= ->].
  - destruct s as [|b s]; [done|].
    destruct (Ascii.eqb_spec c b) as [->|]; [|done].
    intros Hs. by rewrite (IH _ Hs).
Qed.

Lemma take_app_length (s1 s2 : string) :
  Re.take (String.length s1) (s1 +:+ s2) = s1.
Proof. induction s1 as [|c s1 IH]; simpl; [by destruct s2|congruence]. Qed.

Lemma consumed_app (s1 s2 : string) : Re.consumed (s1 +:+ s2) s2 = s1.
Proof.
  unfold Re.consumed. rewrite string_length_app.
  replace (String.length s1 + String.length s2 - String.length s2)%nat
    with (String.length s1) by lia.
  apply take_app_length.
Qed.

Lemma every_app (p : Re.charset) (s1 s2 : string) :
  every p (s1 +:+ s2) = every p s1 && every p s2.
Proof.
  induction s1 as [|c s1 IH]; simpl; [done|]. rewrite IH. by rewrite andb_assoc.
Qed.

Section Matcher.
Context {R : Type}.
Implicit Types (k : string → gmap nat string → option R) (gs : gmap nat string).

Lemma star_sound (p : Re.charset) (s : string) gs k (x : R) :
  Re.star p s gs k = Some x →
  ∃ s1 s2, s = s1 +:+ s2 ∧ every p s1 = true ∧ k s2 gs = Some x.
Proof.
  induction s as [|c s IH]; simpl.
  - intros Hk. by exists "", "".
  - destruct (p c) eqn:Hc; [|intros Hk; by exists "", (String c s)].
    destruct (Re.star p s gs k) as [y|] eqn:Hs.
    + intros [= ->]. destruct (IH eq_refl) as (s1 & s2 & -> & Hall & Hk).
      exists (String c s1), s2. simpl. by rewrite Hc, Hall.
    + intros Hk. by exists "", (String c s).
Qed.

Lemma star_complete (p : Re.charset) (s1 s2 : string) gs k :
  every p s1 = true → is_Some (k s2 gs) → is_Some (Re.star p (s1 +:+ s2) gs k).
Proof.
  intros Hall Hk. induction s1 as [|c s1 IH]; simpl in *.
  - destruct s2 as [|c s2]; simpl; [done|].
    destruct (p c); [|done]. by destruct (Re.star p s2 gs k).
  - apply andb_prop in Hall as [-> Hall].
    destruct (IH Hall) as [y ->]. by eexists.
Qed.

(** A success of the matcher splits the text into a part the pattern
    denotes and a rest the continuation accepts. *)
Lemma run_sound (r : Re.regex) :
  ∀ (s : string) gs k (x : R),
    Re.run r s gs k = Some x →
    ∃ s1 s2 gs', s = s1 +:+ s2 ∧ derives r s1 gs gs' ∧ k s2 gs' = Some x.
Proof.
  induction r as [p|p|p|r1 IH1 r2 IH2|r1 IH1 r2 IH2|i r IH]; intros s gs k x; simpl.
  - destruct (Re.strip_prefix p s) as [s'|] eqn:Hp; [|done].
    intros Hk. apply strip_prefix_Some in Hp as ->.
    exists p, s', gs. split; [done|]. split; [constructor|done].
  - destruct s as [|c s]; [done|]. destruct (p c) eqn:Hc; [|done].
    intros Hk. exists (String c ""), s, gs. split; [done|].
    split; [by constructor|done].
  - intros Hs. destruct (star_sound _ _ _ _ _ Hs) as (s1 & s2 & -> & Hall & Hk).
    exists s1, s2, gs. split; [done|]. split; [by constructor|done].
  - intros H1. destruct (IH1 _ _ _ _ H1) as (s1 & s' & gs1 & -> & Hd1 & H2).
    destruct (IH2 _ _ _ _ H2) as (s2 & s3 & gs2 & -> & Hd2 & Hk).
    exists (s1 +:+ s2), s3, gs2. rewrite string_app_assoc.
    split; [done|]. split; [by econstructor|done].
  - destruct (Re.run r1 s gs k) as [y|] eqn:H1.
    + intros [= ->]. destruct (IH1 _ _ _ _ H1) as (s1 & s2 & gs' & -> & Hd & Hk).
      exists s1, s2, gs'. split; [done|]. split; [by apply derives_alt_l|done].
    + intros H2. destruct (IH2 _ _ _ _ H2) as (s1 & s2 & gs' & -> & Hd & Hk).
      exists s1, s2, gs'. split; [done|]. split; [by apply derives_alt_r|done].
  - intros H1. destruct (IH _ _ _ _ H1) as (s1 & s2 & gs' & -> & Hd & Hk).
    rewrite consumed_app in Hk.
    exists s1, s2, (<[i := s1]> gs'). split; [done|]. split; [by constructor|done].
Qed.

(** When the pattern denotes a prefix and the continuation accepts the
    rest whatever the groups, the matcher succeeds. *)
Lemma run_complete (r : Re.regex) (s1 : string) gs gs' :
  derives r s1 gs gs' →
  ∀ (s2 : string) k gs0,
    (∀ gs1, is_Some (k s2 gs1)) → is_Some (Re.run r (s1 +:+ s2) gs0 k).
Proof.
  induction 1 as [p gs|p c gs Hc|p s gs Hall|r1 r2 s1 s2 gs gs1 gs2 _ IH1 _ IH2
                  |r1 r2 s gs gs' _ IH|r1 r2 s gs gs' _ IH|i r s gs gs' _ IH];
    intros s3 k gs0 Hk; simpl.
  - rewrite strip_prefix_app. apply Hk.
  - rewrite Hc. apply Hk.
  - by apply star_complete.
  - rewrite string_app_assoc. apply IH1. intros gs3. by apply IH2.
  - destruct (IH s3 k gs0 Hk) as [y ->]. by eexists.
  - destruct (Re.run r1 (s +:+ s3) gs0 k); [by eexists|]. by apply IH.
  - apply IH. intros gs3. apply Hk.
Qed.

End Matcher.

Lemma match_sound (r : Re.regex) (s : string) (m : Re.match_object) :
  Re.match_ r s = Some m →
  ∃ s1, s = s1 +:+ Re.rest m ∧ derives r s1 ∅ (Re.captures m).
Proof.
  unfold Re.match_. intros Hm.
  destruct (run_sound _ _ _ _ _ Hm) as (s1 & s2 & gs' & -> & Hd & [= <-]).
  by exists s1.
Qed.

Lemma search_sound (r : Re.regex) (s : string) (m : Re.match_object) :
  Re.search r s = Some m →
  ∃ before found,
    s = before +:+ found +:+ Re.rest m ∧ derives r found ∅ (Re.captures m).
Proof.
  induction s as [|c s IH]; simpl.
  - destruct (Re.match_ r "") as [m'|] eqn:Hm; [|done].
    intros [= ->]. destruct (match_sound _ _ _ Hm) as (s1 & Hs & Hd).
    by exists "", s1.
  - destruct (Re.match_ r (String c s)) as [m'|] eqn:Hm.
    + intros [= ->]. destruct (match_sound _ _ _ Hm) as (s1 & Hs & Hd).
      by exists "", s1.
    + intros Hs. destruct (IH Hs) as (before & found & -> & Hd).
      by exists (String c before), found.
Qed.

Lemma search_complete (r : Re.regex) (before found after : string) gs gs' :
  derives r found gs gs' →
  is_Some (Re.search r (before +:+ found +:+ after)).
Proof.
  intros Hd. induction before as [|c before IH]; simpl.
  - assert (Hm : is_Some (Re.match_ r (found +:+ after)))
      by (apply (run_complete r found gs gs' Hd); by eexists).
    destruct Hm as [m Hm]. destruct (found +:+ after); simpl; by rewrite Hm.
  - destruct (Re.match_ r _); [by eexists|done].
Qed.


(** ** The confirmation of an order *)

Ltac invert_derives :=
  repeat match goal with
         | H : derives (Re.Cat _ _) _ _ _ |- _ => inversion H; subst; clear H
         | H : derives (Re.Grp _ _) _ _ _ |- _ => inversion H; subst; clear H
         | H : derives (Re.Str _) _ _ _ |- _ => inversion H; subst; clear H
         | H : derives (Re.Cls _) _ _ _ |- _ => inversion H; subst; clear H
         | H : derives (Re.Star _) _ _ _ |- _ => inversion H; subst; clear H
         | H : derives (Re.Plus _) _ _ _ |- _ => unfold Re.Plus in H
         end.

Lemma derives_plus (p : Re.charset) (s : string) gs :
  one_or_more p s = true → derives (Re.Plus p) s gs gs.
Proof.
  destruct s as [|c s]; [done|]. simpl. intros [Hc Hs]%andb_prop.
  change (String c s) with (String c "" +:+ s).
  apply derives_cat with gs; by constructor.
Qed.

Lemma derives_plus_inv (p : Re.charset) (s : string) gs gs' :
  derives (Re.Plus p) s gs gs' → one_or_more p s = true ∧ gs' = gs.
Proof.
  intros H. invert_derives. simpl. split; [|done].
  match goal with Hc : p _ = true |- _ => rewrite Hc end. done.
Qed.

(** What [order_pattern] denotes, and the groups it captures. *)
Lemma order_pattern_denotes (found : string) gs gs' :
  derives order_pattern found gs gs' ↔
  ∃ ws1 u ws2 o ws3 n,
    found = "user:" +:+ ws1 +:+ u +:+ ", order session ID:" +:+ ws2 +:+ o
            +:+ " number of files ordered:" +:+ ws3 +:+ n
    ∧ every Re.space ws1 = true ∧ one_or_more Re.lower u = true
    ∧ every Re.space ws2 = true ∧ one_or_more Re.digit o = true
    ∧ every Re.space ws3 = true ∧ one_or_more Re.digit n = true
    ∧ gs' = <[3%nat := n]> (<[2%nat := o]> (<[1%nat := u]> gs)).
Proof.
  unfold order_pattern. cbn [Re.cats]. split.
  - intros H.
    repeat match goal with
           | H : derives (Re.Cat _ _) _ _ _ |- _ => inversion H; subst; clear H
           | H : derives (Re.Str _) _ _ _ |- _ => inversion H; subst; clear H
           | H : derives (Re.Star _) _ _ _ |- _ => inversion H; subst; clear H
           | H : derives (Re.Grp _ (Re.Plus _)) _ _ _ |- _ =>
               inversion H; subst; clear H
           | H : derives (Re.Plus _) _ _ _ |- _ =>
               apply derives_plus_inv in H as [? ->]
           end.
    by eexists _, _, _, _, _, _.
  - intros (ws1 & u & ws2 & o & ws3 & n & -> & H1 & Hu & H2 & Ho & H3 & Hn & ->).
    repeat first
      [ eapply derives_cat
      | apply derives_str
      | apply derives_star; eassumption
      | apply derives_grp; apply derives_plus; eassumption ].
Qed.

Lemma order_groups (m : Re.match_object) (u o n : string) :
  Re.captures m = <[3%nat := n]> (<[2%nat := o]> (<[1%nat := u]> ∅)) →
  Re.groups 3 m = [Some u; Some o; Some n].
Proof. intros Hc. unfold Re.groups. rewrite Hc. reflexivity. Qed.



Example order_files_accepted :
  snd (order_files
         (toy_archive [] "user: jdoe, order session ID: 12345 number of files ordered: 7" [] "")
         "jdoe" ["a.nc"] world0)
  = Ok (true, confirmation [Some "jdoe"; Some "12345"; Some "7"]).
Proof. by vm_compute. Qed.

Example order_files_refused :
  snd (order_files (toy_archive [] "Error: quota exceeded" [] "") "jdoe" ["a.nc"] world0)
  = Ok (false, server_response "Error: quota exceeded").
Proof. by vm_compute. Qed.

(** The match is searched for, not anchored, and the groups are those of
    the leftmost, greedy match. *)
Example order_files_embedded :
  snd (order_files
         (toy_archive []
            "OK user:ab, order session ID:	 42 number of files ordered:10 files; user:c, order session ID:1 number of files ordered:2"
            [] "")
         "ab" [] world0)
  = Ok (true, confirmation [Some "ab"; Some "42"; Some "10"]).
Proof. by vm_compute. Qed.


(** ** The proleptic Gregorian calendar of [datetime] *)

Section Calendar.
Import DateTime.

(** Every year is [400 a + 100 b + 4 c + e + 1], a position in the cycle of
    400 years. *)
Lemma year_decomp (y : Z) :
  ∃ a b c e, y = 400 * a + 100 * b + 4 * c + e + 1
    ∧ 0 ≤ b ≤ 3 ∧ 0 ≤ c ≤ 24 ∧ 0 ≤ e ≤ 3.
Proof.
  exists ((y - 1) / 400), ((y - 1) mod 400 / 100), ((y - 1) mod 400 mod 100 / 4),
    ((y - 1) mod 400 mod 100 mod 4).
  pose proof (Z.div_mod (y - 1) 400 ltac:(lia)) as E1.
  pose proof (Z.mod_pos_bound (y - 1) 400 ltac:(lia)) as B1.
  pose proof (Z.div_mod ((y - 1) mod 400) 100 ltac:(lia)) as E2.
  pose proof (Z.mod_pos_bound ((y - 1) mod 400) 100 ltac:(lia)) as B2.
  pose proof (Z.div_mod (((y - 1) mod 400) mod 100) 4 ltac:(lia)) as E3.
  pose proof (Z.mod_pos_bound (((y - 1) mod 400) mod 100) 4 ltac:(lia)) as B3.
  pose proof (Z.div_pos ((y - 1) mod 400) 100 ltac:(lia) ltac:(lia)).
  pose proof (Z.div_lt_upper_bound ((y - 1) mod 400) 100 4 ltac:(lia) ltac:(lia)).
  pose proof (Z.div_pos ((y - 1) mod 400 mod 100) 4 ltac:(lia) ltac:(lia)).
  pose proof (Z.div_lt_upper_bound ((y - 1) mod 400 mod 100) 4 25 ltac:(lia) ltac:(lia)).
  lia.
Qed.

Lemma is_leap_decomp (a b c e : Z) :
  0 ≤ b ≤ 3 → 0 ≤ c ≤ 24 → 0 ≤ e ≤ 3 →
  _is_leap (400 * a + 100 * b + 4 * c + e + 1)
  = (e =? 3) && (negb (c =? 24) || (b =? 3)).
Proof.
  intros Hb Hc He. unfold _is_leap.
  set (y := 400 * a + 100 * b + 4 * c + e + 1).
  assert (M4 : y mod 4 = (e + 1) mod 4).
  { unfold y. replace (400 * a + 100 * b + 4 * c + e + 1)
      with ((e + 1) + (100 * a + 25 * b + c) * 4) by lia.
    apply Z.mod_add. lia. }
  assert (M100 : y mod 100 = (4 * c + e + 1) mod 100).
  { unfold y. replace (400 * a + 100 * b + 4 * c + e + 1)
      with ((4 * c + e + 1) + (4 * a + b) * 100) by lia.
    apply Z.mod_add. lia. }
  assert (M400 : y mod 400 = (100 * b + 4 * c + e + 1) mod 400).
  { unfold y. replace (400 * a + 100 * b + 4 * c + e + 1)
      with ((100 * b + 4 * c + e + 1) + a * 400) by lia.
    apply Z.mod_add. lia. }
  rewrite M4, M100, M400. clearbody y. clear y M4 M100 M400.
  destruct (Z.eqb_spec e 3) as [->|He3].
  - change ((3 + 1) mod 4) with 0. simpl.
    destruct (Z.eqb_spec c 24) as [->|Hc24].
    + replace (4 * 24 + 3 + 1) with 100 by lia. change (100 mod 100) with 0. simpl.
      destruct (Z.eqb_spec b 3) as [->|Hb3].
      * reflexivity.
      * rewrite Z.mod_small by lia. apply Z.eqb_neq. lia.
    + rewrite (Z.mod_small (4 * c + 3 + 1)) by lia.
      replace (4 * c + 3 + 1 =? 0) with false by (symmetry; apply Z.eqb_neq; lia).
      reflexivity.
  - rewrite (Z.mod_small (e + 1)) by lia.
    replace (e + 1 =? 0) with false by (symmetry; apply Z.eqb_neq; lia).
    reflexivity.
Qed.

Lemma days_before_year_decomp (a b c e : Z) :
  0 ≤ b ≤ 3 → 0 ≤ c ≤ 24 → 0 ≤ e ≤ 3 →
  _days_before_year (400 * a + 100 * b + 4 * c + e + 1)
  = 146097 * a + 36524 * b + 1461 * c + 365 * e.
Proof.
  intros Hb Hc He. unfold _days_before_year. cbv zeta.
  replace (400 * a + 100 * b + 4 * c + e + 1 - 1)
    with (400 * a + 100 * b + 4 * c + e) by lia.
  replace ((400 * a + 100 * b + 4 * c + e) / 4) with (100 * a + 25 * b + c)
    by (apply Z.div_unique with e; lia).
  replace ((400 * a + 100 * b + 4 * c + e) / 100) with (4 * a + b)
    by (apply Z.div_unique with (4 * c + e); lia).
  replace ((400 * a + 100 * b + 4 * c + e) / 400) with a
    by (apply Z.div_unique with (100 * b + 4 * c + e); lia).
  lia.
Qed.

(** [_ord2ymd] in two steps: the year, then the month and day. *)
Lemma ord2ymd_month_day (n0 : Z) :
  _ord2ymd n0 =
    let n := n0 - 1 in
    let n400 := n / _DI400Y in
    let n := n mod _DI400Y in
    let n100 := n / _DI100Y in
    let n := n mod _DI100Y in
    let n4 := n / _DI4Y in
    let n := n mod _DI4Y in
    let n1 := n / 365 in
    let n := n mod 365 in
    let year := n400 * 400 + 1 + (n100 * 100 + n4 * 4 + n1) in
    if (n1 =? 4) || (n100 =? 4) then (year - 1, 12, 31)
    else
      let '(month, day) :=
        month_day ((n1 =? 3) && (negb (n4 =? 24) || (n100 =? 3))) n in
      (year, month, day).
Proof.
  unfold _ord2ymd, month_day. cbv zeta.
  destruct (_ || _); [done|].
  by destruct (_ <? _).
Qed.

Ltac quotient q r :=
  match goal with
  | |- context [?x / ?d] =>
      replace (x / d) with q by (apply Z.div_unique with r; lia)
  end.
Ltac remainder q r :=
  match goal with
  | |- context [?x mod ?d] =>
      replace (x mod d) with r by (apply Z.mod_unique with q; lia)
  end.

Lemma ord2ymd_year (a b c e k : Z) :
  0 ≤ b ≤ 3 → 0 ≤ c ≤ 24 → 0 ≤ e ≤ 3 →
  let leap := (e =? 3) && (negb (c =? 24) || (b =? 3)) in
  let y := 400 * a + 100 * b + 4 * c + e + 1 in
  0 ≤ k < 365 + (if leap then 1 else 0) →
  _ord2ymd (146097 * a + 36524 * b + 1461 * c + 365 * e + k + 1) =
    if k =? 365 then (y, 12, 31)
    else let '(month, day) := month_day leap k in (y, month, day).
Proof.
  intros Hb Hc He leap y Hk. rewrite ord2ymd_month_day. cbv zeta.
  unfold _DI400Y, _DI100Y, _DI4Y.
  replace (146097 * a + 36524 * b + 1461 * c + 365 * e + k + 1 - 1)
    with (146097 * a + 36524 * b + 1461 * c + 365 * e + k) by lia.
  assert (Hleap : leap = true → e = 3 ∧ (c ≠ 24 ∨ b = 3)).
  { unfold leap. intros [He3 Hcb]%andb_prop. apply Z.eqb_eq in He3.
    split; [done|]. apply orb_prop in Hcb as [Hc24|Hb3].
    - left. apply negb_true_iff, Z.eqb_neq in Hc24. done.
    - right. by apply Z.eqb_eq in Hb3. }
  destruct (Z.eqb_spec k 365) as [->|Hk365].
  - destruct leap eqn:El; [|lia]. destruct (Hleap eq_refl) as [-> Hcb].
    destruct (Z.eq_dec c 24) as [->|Hc24].
    + assert (b = 3) as -> by lia.
      replace (146097 * a + 36524 * 3 + 1461 * 24 + 365 * 3 + 365)
        with (146097 * a + 146096) by lia.
      replace ((146097 * a + 146096) mod 146097) with 146096
        by (apply Z.mod_unique with a; lia).
      replace ((146097 * a + 146096) / 146097) with a
        by (apply Z.div_unique with 146096; lia).
      change (146096 / 36524) with 4. change (146096 mod 36524) with 0.
      simpl. f_equal. f_equal. unfold y. Z.div_mod_to_equations; lia.
    + replace ((146097 * a + 36524 * b + 1461 * c + 365 * 3 + 365) mod 146097)
        with (36524 * b + 1461 * c + 1460) by (apply Z.mod_unique with a; lia).
      replace ((146097 * a + 36524 * b + 1461 * c + 365 * 3 + 365) / 146097)
        with a by (apply Z.div_unique with (36524 * b + 1461 * c + 1460); lia).
      replace ((36524 * b + 1461 * c + 1460) mod 36524) with (1461 * c + 1460)
        by (apply Z.mod_unique with b; lia).
      replace ((36524 * b + 1461 * c + 1460) / 36524) with b
        by (apply Z.div_unique with (1461 * c + 1460); lia).
      replace ((1461 * c + 1460) mod 1461) with 1460
        by (apply Z.mod_unique with c; lia).
      replace ((1461 * c + 1460) / 1461) with c
        by (apply Z.div_unique with 1460; lia).
      change (1460 / 365) with 4. simpl. f_equal. f_equal. unfold y. Z.div_mod_to_equations; lia.
  - assert (Hk' : k < 365) by (destruct leap; lia).
    replace ((146097 * a + 36524 * b + 1461 * c + 365 * e + k) mod 146097)
      with (36524 * b + 1461 * c + 365 * e + k) by (apply Z.mod_unique with a; lia).
    replace ((146097 * a + 36524 * b + 1461 * c + 365 * e + k) / 146097)
      with a by (apply Z.div_unique with (36524 * b + 1461 * c + 365 * e + k); lia).
    replace ((36524 * b + 1461 * c + 365 * e + k) mod 36524)
      with (1461 * c + 365 * e + k) by (apply Z.mod_unique with b; lia).
    replace ((36524 * b + 1461 * c + 365 * e + k) / 36524) with b
      by (apply Z.div_unique with (1461 * c + 365 * e + k); lia).
    replace ((1461 * c + 365 * e + k) mod 1461) with (365 * e + k)
      by (apply Z.mod_unique with c; lia).
    replace ((1461 * c + 365 * e + k) / 1461) with c
      by (apply Z.div_unique with (365 * e + k); lia).
    replace ((365 * e + k) mod 365) with k by (apply Z.mod_unique with e; lia).
    replace ((365 * e + k) / 365) with e by (apply Z.div_unique with k; lia).
    replace (e =? 4) with false by (symmetry; apply Z.eqb_neq; lia).
    replace (b =? 4) with false by (symmetry; apply Z.eqb_neq; lia).
    cbn [orb]. fold leap. destruct (month_day leap k) as [month day].
    f_equal. f_equal. unfold y. lia.
Qed.

(** The month and day part, checked on every day of a common year and of
    a leap year. *)
Lemma month_day_of_yday (leap : bool) (m d : Z) :
  1 ≤ m ≤ 12 →
  1 ≤ d ≤ (if (m =? 2) && leap then 29 else item _DAYS_IN_MONTH m) →
  let k := item _DAYS_BEFORE_MONTH m + (if (2 <? m) && leap then 1 else 0) + d - 1 in
  month_day leap k = (m, d)
  ∧ 0 ≤ k < 365 + (if leap then 1 else 0)
  ∧ (k = 365 → m = 12 ∧ d = 31).
Proof.
  intros Hm Hd k.
  pose (ok := fun (leap : bool) (m d : Z) =>
    let k := item _DAYS_BEFORE_MONTH m + (if (2 <? m) && leap then 1 else 0) + d - 1 in
    negb (d <=? (if (m =? 2) && leap then 29 else item _DAYS_IN_MONTH m))
    || ((fst (month_day leap k) =? m) && (snd (month_day leap k) =? d)
        && (0 <=? k) && (k <? 365 + (if leap then 1 else 0))
        && (negb (k =? 365) || ((m =? 12) && (d =? 31))))).
  assert (Hall : forallb (fun l => forallb (fun m => forallb (ok l m) (seqZ 1 31))
                                     (seqZ 1 12)) [true; false] = true)
    by (vm_compute; reflexivity).
  assert (Hok : ok leap m d = true).
  { rewrite forallb_forall in Hall.
    assert (Hl : In leap [true; false]) by (destruct leap; simpl; auto).
    specialize (Hall leap Hl). rewrite forallb_forall in Hall.
    assert (Hmi : In m (seqZ 1 12)) by (apply list_elem_of_In, elem_of_seqZ; lia).
    specialize (Hall m Hmi). rewrite forallb_forall in Hall.
    apply Hall. apply list_elem_of_In, elem_of_seqZ. split; [lia|].
    assert (item _DAYS_IN_MONTH m ≤ 31).
    { assert (Hc : m = 1 ∨ m = 2 ∨ m = 3 ∨ m = 4 ∨ m = 5 ∨ m = 6 ∨ m = 7 ∨ m = 8
                   ∨ m = 9 ∨ m = 10 ∨ m = 11 ∨ m = 12) by lia.
      repeat (destruct Hc as [->|Hc]; [vm_compute; discriminate|]).
      subst m. vm_compute. discriminate. }
    destruct ((m =? 2) && leap); lia. }
  unfold ok in Hok. cbv zeta in Hok. fold k in Hok.
  apply orb_prop in Hok as [Hno|Hyes].
  - apply negb_true_iff, Z.leb_gt in Hno. lia.
  - repeat match type of Hyes with
           | _ && _ = true => apply andb_prop in Hyes as [Hyes ?]
           end.
    destruct (month_day leap k) as [m' d']. simpl in *.
    split; [f_equal; lia|]. split; [lia|].
    intros Hk365.
    match goal with
    | H : negb (k =? 365) || _ = true |- _ =>
        apply orb_prop in H as [H|H];
        [apply negb_true_iff, Z.eqb_neq in H; lia
        |apply andb_prop in H as [?%Z.eqb_eq ?%Z.eqb_eq]; lia]
    end.
Qed.

(** From a date to its ordinal and back. *)
Lemma ord2ymd_ymd2ord (y m d : Z) :
  1 ≤ m ≤ 12 → 1 ≤ d ≤ _days_in_month y m →
  _ord2ymd (_ymd2ord y m d) = (y, m, d).
Proof.
  intros Hm Hd.
  destruct (year_decomp y) as (a & b & c & e & -> & Hb & Hc & He).
  unfold _ymd2ord, _days_before_month, _days_in_month in *.
  rewrite days_before_year_decomp by done.
  rewrite is_leap_decomp in * by done.
  set (leap := (e =? 3) && (negb (c =? 24) || (b =? 3))) in *.
  destruct (month_day_of_yday leap m d Hm Hd) as (Hmd & Hk & H365).
  cbv zeta in Hmd, Hk, H365.
  set (k := item _DAYS_BEFORE_MONTH m + (if (2 <? m) && leap then 1 else 0) + d - 1) in *.
  replace (146097 * a + 36524 * b + 1461 * c + 365 * e
           + (item _DAYS_BEFORE_MONTH m + (if (2 <? m) && leap then 1 else 0)) + d)
    with (146097 * a + 36524 * b + 1461 * c + 365 * e + k + 1) by (unfold k; lia).
  rewrite ord2ymd_year by done. fold leap. rewrite Hmd.
  destruct (Z.eqb_spec k 365) as [E|_]; [|done].
  destruct (H365 E) as [-> ->]. done.
Qed.

Lemma is_leap_leap_year (y : Z) : _is_leap y = leap_year y.
Proof.
  unfold _is_leap, leap_year.
  destruct (Z.eqb_spec (y mod 4) 0) as [H4|H4]; simpl.
  - by destruct (y mod 100 =? 0), (y mod 400 =? 0).
  - destruct (Z.eqb_spec (y mod 400) 0) as [H400|H400]; [|done].
    exfalso. apply H4.
    rewrite (Z_div_mod_eq_full y 400), H400.
    replace (400 * (y / 400) + 0) with (0 + (100 * (y / 400)) * 4) by lia.
    by rewrite Z.mod_add.
Qed.

Lemma days_in_month_length (y m : Z) :
  1 ≤ m ≤ 12 → _days_in_month y m = month_length y m.
Proof.
  intros Hm. unfold _days_in_month, month_length. rewrite is_leap_leap_year.
  assert (Hc : m = 1 ∨ m = 2 ∨ m = 3 ∨ m = 4 ∨ m = 5 ∨ m = 6 ∨ m = 7 ∨ m = 8
               ∨ m = 9 ∨ m = 10 ∨ m = 11 ∨ m = 12) by lia.
  repeat (destruct Hc as [->|Hc]; [by destruct (leap_year y)|]).
  subst m. by destruct (leap_year y).
Qed.

Lemma days_before_year_succ (y : Z) :
  _days_before_year (y + 1)
  = _days_before_year y + 365 + (if _is_leap y then 1 else 0).
Proof.
  destruct (year_decomp y) as (a & b & c & e & -> & Hb & Hc & He).
  rewrite is_leap_decomp, days_before_year_decomp by done.
  unfold _days_before_year. cbv zeta.
  replace (400 * a + 100 * b + 4 * c + e + 1 + 1 - 1)
    with (400 * a + 100 * b + 4 * c + e + 1) by lia.
  destruct (Z.eqb_spec e 3) as [->|He3]; cycle 1.
  { cbn [andb].
    replace ((400 * a + 100 * b + 4 * c + e + 1) / 4) with (100 * a + 25 * b + c)
      by (apply Z.div_unique with (e + 1); lia).
    replace ((400 * a + 100 * b + 4 * c + e + 1) / 100) with (4 * a + b)
      by (apply Z.div_unique with (4 * c + e + 1); lia).
    replace ((400 * a + 100 * b + 4 * c + e + 1) / 400) with a
      by (apply Z.div_unique with (100 * b + 4 * c + e + 1); lia).
    lia. }
  replace ((400 * a + 100 * b + 4 * c + 3 + 1) / 4) with (100 * a + 25 * b + c + 1)
    by (apply Z.div_unique with 0; lia).
  destruct (Z.eqb_spec c 24) as [->|Hc24]; cycle 1.
  { cbn [andb negb orb].
    replace ((400 * a + 100 * b + 4 * c + 3 + 1) / 100) with (4 * a + b)
      by (apply Z.div_unique with (4 * c + 4); lia).
    replace ((400 * a + 100 * b + 4 * c + 3 + 1) / 400) with a
      by (apply Z.div_unique with (100 * b + 4 * c + 4); lia).
    lia. }
  replace ((400 * a + 100 * b + 4 * 24 + 3 + 1) / 100) with (4 * a + b + 1)
    by (apply Z.div_unique with 0; lia).
  destruct (Z.eqb_spec b 3) as [->|Hb3]; cbn [andb negb orb].
  - replace ((400 * a + 100 * 3 + 4 * 24 + 3 + 1) / 400) with (a + 1)
      by (apply Z.div_unique with 0; lia).
    lia.
  - replace ((400 * a + 100 * b + 4 * 24 + 3 + 1) / 400) with a
      by (apply Z.div_unique with (100 * b + 100); lia).
    lia.
Qed.

Lemma days_before_year_mono (y z : Z) :
  y ≤ z → _days_before_year y ≤ _days_before_year z.
Proof.
  intros Hyz. replace z with (y + Z.of_nat (Z.to_nat (z - y))) by lia.
  induction (Z.to_nat (z - y)) as [|n IH]; [by rewrite Z.add_0_r|].
  rewrite Nat2Z.inj_succ, <- Z.add_1_r, Z.add_assoc, days_before_year_succ.
  destruct (_is_leap _); lia.
Qed.

(** The ordinals of the dates [datetime] knows. *)
Lemma ymd2ord_range (y m d : Z) :
  1 ≤ y ≤ 9999 → 1 ≤ m ≤ 12 → 1 ≤ d ≤ _days_in_month y m →
  1 ≤ _ymd2ord y m d ≤ _MAXORDINAL.
Proof.
  intros Hy Hm Hd. unfold _days_in_month in Hd.
  destruct (month_day_of_yday (_is_leap y) m d Hm Hd) as (_ & Hk & _).
  cbv zeta in Hk. unfold _ymd2ord, _days_before_month.
  pose proof (days_before_year_mono 1 y ltac:(lia)) as Hlo.
  pose proof (days_before_year_mono (y + 1) 10000 ltac:(lia)) as Hhi.
  rewrite days_before_year_succ in Hhi.
  change (_days_before_year 1) with 0 in Hlo.
  change (_days_before_year 10000) with 3652059 in Hhi.
  unfold _MAXORDINAL. destruct (_is_leap y); lia.
Qed.

(** The ordinal of the day after is the next ordinal. *)
Lemma ymd2ord_next_day (y m d : Z) :
  1 ≤ m ≤ 12 → 1 ≤ d ≤ _days_in_month y m →
  let '(y', m', d') := next_day y m d in
  _ymd2ord y' m' d' = _ymd2ord y m d + 1
  ∧ 1 ≤ m' ≤ 12 ∧ 1 ≤ d' ≤ _days_in_month y' m'
  ∧ (y' = y ∨ (y' = y + 1 ∧ m = 12 ∧ d = 31)).
Proof.
  intros Hm Hd. unfold next_day.
  rewrite <- days_in_month_length by done.
  destruct (Z.ltb_spec d (_days_in_month y m)) as [Hlt|Hge].
  { unfold _ymd2ord. lia. }
  assert (d = _days_in_month y m) as -> by lia. clear Hge Hd.
  destruct (Z.ltb_spec m 12) as [Hm12|Hm12].
  - unfold _ymd2ord, _days_before_month, _days_in_month.
    pose (ok := fun (leap : bool) (m : Z) =>
      (item _DAYS_BEFORE_MONTH (m + 1) + (if (2 <? m + 1) && leap then 1 else 0)
       =? item _DAYS_BEFORE_MONTH m + (if (2 <? m) && leap then 1 else 0)
          + (if (m =? 2) && leap then 29 else item _DAYS_IN_MONTH m))
      && (1 <=? (if (m + 1 =? 2) && leap then 29 else item _DAYS_IN_MONTH (m + 1)))).
    assert (Hall : forallb (fun l => forallb (ok l) (seqZ 1 11)) [true; false] = true)
      by (vm_compute; reflexivity).
    assert (Hok : ok (_is_leap y) m = true).
    { rewrite forallb_forall in Hall.
      assert (Hl : In (_is_leap y) [true; false])
        by (destruct (_is_leap y); simpl; auto).
      specialize (Hall _ Hl). rewrite forallb_forall in Hall.
      apply Hall, list_elem_of_In, elem_of_seqZ. lia. }
    unfold ok in Hok. apply andb_prop in Hok as [H1%Z.eqb_eq H2%Z.leb_le]. lia.
  - assert (m = 12) as -> by lia.
    unfold _ymd2ord, _days_before_month, _days_in_month.
    rewrite days_before_year_succ.
    change (item _DAYS_BEFORE_MONTH 12) with 334.
    change (item _DAYS_BEFORE_MONTH 1) with 0.
    change (item _DAYS_IN_MONTH 12) with 31.
    change (item _DAYS_IN_MONTH 1) with 31.
    change (12 =? 2) with false. change (1 =? 2) with false.
    change (2 <? 12) with true. change (2 <? 1) with false.
    cbn [andb]. destruct (_is_leap y); lia.
Qed.

(** Adding one day to a date gives the day after, as long as there is one
    before the end of year 9999. *)
Lemma add_days_next_day (y m d : Z) :
  valid_date y m d → (y, m, d) ≠ (9999, 12, 31) →
  let '(y', m', d') := next_day y m d in
  add_days (Datetime y m d) 1 = Ok (Datetime y' m' d')
  ∧ valid_date y' m' d'.
Proof.
  intros (Hy & Hm & Hd) Hmax.
  rewrite <- days_in_month_length in Hd by done.
  pose proof (ymd2ord_next_day y m d Hm Hd) as Hnext.
  destruct (next_day y m d) as [[y' m'] d'].
  destruct Hnext as (Hord & Hm' & Hd' & Hy').
  assert (Hy9 : 1 ≤ y' ≤ 9999).
  { destruct Hy' as [->|(-> & -> & ->)]; [done|].
    assert (y ≠ 9999) by congruence. lia. }
  pose proof (ymd2ord_range y' m' d' Hy9 Hm' Hd') as Hrange.
  unfold add_days, toordinal, fromordinal. cbn [year month day].
  rewrite <- Hord.
  replace (0 <? _ymd2ord y' m' d') with true by (symmetry; apply Z.ltb_lt; lia).
  replace (_ymd2ord y' m' d' <=? _MAXORDINAL) with true
    by (symmetry; apply Z.leb_le; lia).
  cbn [andb]. rewrite ord2ymd_ymd2ord by done.
  split; [done|]. split; [done|]. split; [done|].
  by rewrite <- days_in_month_length.
Qed.

End Calendar.


(** ** Reading and writing dates *)

Section Dates.
Import DateTime.

Lemma digit_char_cases (n : Z) :
  Re.digit (digit_char n) = true ∧ Re.space (digit_char n) = false
  ∧ digit_value (digit_char n) = n mod 10.
Proof.
  unfold digit_char.
  pose proof (Z.mod_pos_bound n 10 ltac:(lia)) as Hr.
  generalize dependent (n mod 10). intros r Hr.
  assert (Hc : r = 0 ∨ r = 1 ∨ r = 2 ∨ r = 3 ∨ r = 4 ∨ r = 5 ∨ r = 6 ∨ r = 7
               ∨ r = 8 ∨ r = 9) by lia.
  repeat (destruct Hc as [->|Hc]; [vm_compute; auto|]).
  subst r. vm_compute. auto.
Qed.

Lemma int_zfill4 (y : Z) : 0 ≤ y ≤ 9999 → int (zfill4 y) = Ok y.
Proof.
  intros Hy. unfold int, zfill4. cbn [lstrip].
  destruct (digit_char_cases (y / 1000)) as (D1 & S1 & V1).
  destruct (digit_char_cases (y / 100)) as (D2 & _ & V2).
  destruct (digit_char_cases (y / 10)) as (D3 & _ & V3).
  destruct (digit_char_cases y) as (D4 & _ & V4).
  rewrite S1. cbn [int_digits]. rewrite D1, D2, D3, D4, V1, V2, V3, V4.
  f_equal. Z.div_mod_to_equations. lia.
Qed.

Lemma int_zfill2 (n : Z) : 0 ≤ n ≤ 99 → int (zfill2 n) = Ok n.
Proof.
  intros Hn. unfold int, zfill2. cbn [lstrip].
  destruct (digit_char_cases (n / 10)) as (D1 & S1 & V1).
  destruct (digit_char_cases n) as (D2 & _ & V2).
  rewrite S1. cbn [int_digits]. rewrite D1, D2, V1, V2.
  f_equal. Z.div_mod_to_equations. lia.
Qed.

Lemma match_format_regex (s : string) :
  Re.match_ format_regex s =
    Re.run (Re.Grp 1 directive_Y) s ∅ (fun s' gs' =>
      Re.run (Re.Cat (Re.Grp 2 directive_m) (Re.Grp 3 directive_d)) s' gs'
        (fun s'' gs'' => Some (Re.MatchObject s'' gs''))).
Proof. reflexivity. Qed.

(** The group of the year takes four digits, whatever follows. *)
Lemma run_year_group {R} (y : Z) (rest : string) gs
    (k : string → gmap nat string → option R) :
  Re.run (Re.Grp 1 directive_Y) (zfill4 y +:+ rest) gs k = k rest (<[1%nat := zfill4 y]> gs).
Proof.
  rewrite <- (consumed_app (zfill4 y) rest) at 2.
  unfold directive_Y, zfill4. cbn [Re.cats Re.run String.append].
  destruct (digit_char_cases (y / 1000)) as (-> & _ & _).
  destruct (digit_char_cases (y / 100)) as (-> & _ & _).
  destruct (digit_char_cases (y / 10)) as (-> & _ & _).
  destruct (digit_char_cases y) as (-> & _ & _).
  reflexivity.
Qed.

(** Two digits of month and two digits of day are read as they stand. *)
Lemma run_month_day_groups (Y : string) (m d : Z) :
  1 ≤ m ≤ 12 → 1 ≤ d ≤ 31 →
  Re.run (Re.Cat (Re.Grp 2 directive_m) (Re.Grp 3 directive_d))
    (zfill2 m +:+ zfill2 d) (<[1%nat := Y]> ∅)
    (fun s' gs => Some (Re.MatchObject s' gs))
  = Some (Re.MatchObject ""
            (<[3%nat := zfill2 d]> (<[2%nat := zfill2 m]> (<[1%nat := Y]> ∅)))).
Proof.
  intros Hm Hd.
  assert (Hmc : m = 1 ∨ m = 2 ∨ m = 3 ∨ m = 4 ∨ m = 5 ∨ m = 6 ∨ m = 7 ∨ m = 8
                ∨ m = 9 ∨ m = 10 ∨ m = 11 ∨ m = 12) by lia.
  assert (Hdc : d = 1 ∨ d = 2 ∨ d = 3 ∨ d = 4 ∨ d = 5 ∨ d = 6 ∨ d = 7 ∨ d = 8
                ∨ d = 9 ∨ d = 10 ∨ d = 11 ∨ d = 12 ∨ d = 13 ∨ d = 14 ∨ d = 15
                ∨ d = 16 ∨ d = 17 ∨ d = 18 ∨ d = 19 ∨ d = 20 ∨ d = 21 ∨ d = 22
                ∨ d = 23 ∨ d = 24 ∨ d = 25 ∨ d = 26 ∨ d = 27 ∨ d = 28 ∨ d = 29
                ∨ d = 30 ∨ d = 31) by lia.
  clear Hm Hd.
  repeat (destruct Hmc as [->|Hmc]);
    repeat (destruct Hdc as [->|Hdc]); subst; vm_compute; reflexivity.
Qed.

(** A date of the calendar, written [YYYYMMDD], is read back as itself. *)
Lemma strptime_yyyymmdd (y m d : Z) :
  valid_date y m d → strptime (yyyymmdd y m d) = Ok (Datetime y m d).
Proof.
  intros (Hy & Hm & Hd).
  assert (Hd31 : d ≤ 31).
  { unfold month_length in Hd.
    destruct (m =? 2); [destruct (leap_year y); lia|].
    destruct (_ || _); lia. }
  unfold strptime, yyyymmdd.
  rewrite match_format_regex, run_year_group, run_month_day_groups by lia.
  cbn [Re.rest Re.captures String.eqb]. unfold group. cbn [Re.captures].
  rewrite lookup_insert_ne, lookup_insert_ne, lookup_insert_eq by done.
  rewrite lookup_insert_ne, lookup_insert_eq by done.
  rewrite lookup_insert_eq. cbn [default option_rect from_option]. unfold id.
  rewrite int_zfill4, int_zfill2, int_zfill2 by lia. cbn [rbind].
  unfold new, valid_ymd, MINYEAR, MAXYEAR.
  rewrite days_in_month_length by done.
  repeat match goal with
         | |- context [?a <=? ?b] =>
             replace (a <=? b) with true by (symmetry; apply Z.leb_le; lia)
         end.
  reflexivity.
Qed.

End Dates.


(** ** The default end date of [list_files] *)




Example default_end_dates :
  end_date_used (H := literal_runtime) "20230228" None = Ok "20230301"
  ∧ end_date_used (H := literal_runtime) "20241231" None = Ok "20250101"
  ∧ end_date_used (H := literal_runtime) "20240228" None = Ok "20240229"
  ∧ end_date_used (H := literal_runtime) "21000228" None = Ok "21000301"
  ∧ end_date_used (H := literal_runtime) "20200101" None = Ok "20200102".
Proof. by vm_compute. Qed.

(** C9, as the code has it: without [enddate], [startdate] goes through
    [strptime] before anything is asked of the service, and a [startdate]
    that [strptime] rejects makes [list_files] raise with no request for
    files sent (the error is that of [strptime] once the client is set
    up); with an [enddate], both strings go to the service exactly as they
    were given, whatever they are. *)
Theorem C9_startdate_parsed_only_for_default `{PyRuntime} (A : archive)
    (datastreams : str_or_list) (startdate : string) (pattern : option string)
    (w : world) :
  (∀ e, DateTime.strptime startdate = Raise e →
     let run := list_files A datastreams startdate None pattern w in
     ws_trace (fst run) = ws_trace w ++ [OpenClient _ARM_WS_URL]
     ∧ (∃ e', snd run = Raise e')
     ∧ (wsdl A _ARM_WS_URL = Ok tt → snd run = Raise e))
  ∧ (∀ enddate, wsdl A _ARM_WS_URL = Ok tt →
       ws_trace (fst (list_files A datastreams startdate (Some enddate) pattern w))
       = ws_trace w ++ [OpenClient _ARM_WS_URL;
                        Invoke (getFiles datastreams startdate enddate)]).
Proof.
  split.
  - intros e He. cbv zeta. rewrite list_files_run.
    unfold end_date_used. rewrite He. cbn [rbind].
    destruct (wsdl A _ARM_WS_URL) as [[]|e0]; cbn [fst snd]; unfold logged;
      cbn [ws_trace]; (split; [done|]); (split; [by eexists|done]).
  - intros enddate Hw. rewrite list_files_run, Hw. cbn [end_date_used fst].
    unfold logged. cbn [ws_trace]. by rewrite <- app_assoc.
Qed.

Lemma C9_witness :
  let A := toy_archive ["a.nc"] "" [] "" in
  (list_files (H := literal_runtime) A (a_str "sgpmetE13.b1") "20230230" None None world0
   = (World [OpenClient _ARM_WS_URL] [] 0 ∅ [], Raise ValueError))
  ∧ ws_trace (fst (list_files (H := literal_runtime) A (a_str "sgpmetE13.b1")
                     "20230230" (Some "next week") None world0))
    = [OpenClient _ARM_WS_URL;
       Invoke (getFiles (a_str "sgpmetE13.b1") "20230230" "next week")].
Proof.
  intros A.
  destruct (C9_startdate_parsed_only_for_default (H := literal_runtime) A
              (a_str "sgpmetE13.b1") "20230230" None world0) as [Hnone Hsome].
  split.
  - specialize (Hnone ValueError eq_refl). cbv zeta in Hnone.
    destruct Hnone as (Ht & _ & Hr). specialize (Hr eq_refl).
    destruct (list_files A (a_str "sgpmetE13.b1") "20230230" None None world0)
      as [w' r] eqn:E.
    cbn [fst snd] in Ht, Hr. subst r.
    assert (w' = World [OpenClient _ARM_WS_URL] [] 0 ∅ []) as ->; [|done].
    change w' with (fst (w', @Raise (list string) ValueError)).
    rewrite <- E. vm_compute. reflexivity.
  - exact (Hsome "next week" eq_refl).
Defined.

(** C9 as stated fails: [strptime] takes months and days of one digit, so
    a start date that is not of the form [YYYYMMDD] can be read, and the
    request is sent with it. *)
Lemma C9_counterexample :
  DateTime.strptime "2023011" = Ok (DateTime.Datetime 2023 1 1)
  ∧ list_files (H := literal_runtime) (toy_archive ["a.nc"] "" [] "")
      (a_str "sgpmetE13.b1") "2023011" None None world0
    = (World [OpenClient _ARM_WS_URL;
              Invoke (getFiles (a_str "sgpmetE13.b1") "2023011" "20230102")]
         [] 0 ∅ [],
       Ok ["a.nc"]).
Proof. split; by vm_compute. Qed.

Example strptime_lenient :
  DateTime.strptime "202311" = Ok (DateTime.Datetime 2023 1 1)
  ∧ DateTime.strptime "2023111" = Ok (DateTime.Datetime 2023 11 1)
  ∧ DateTime.strptime "2023 11" = Raise ValueError
  ∧ DateTime.strptime "20230230" = Raise ValueError
  ∧ DateTime.strptime "00000101" = Raise ValueError
  ∧ DateTime.strptime "2023-01-01" = Raise ValueError
  ∧ DateTime.strptime "202301011" = Raise ValueError
  ∧ DateTime.strptime "" = Raise ValueError.
Proof. by vm_compute. Qed.

(** * Further properties *)

(** ** The functions on the web service *)

Section WebCalls.
Context `{PyRuntime} (A : archive).

Lemma valid_user_run (user : string) (w : world) :
  valid_user A user w =
    web_call A (isValidUser user)
      (rbind (reply_text A (isValidUser user)) (fun v => Ok (String.eqb v "true"))) w.
Proof.
  unfold valid_user, web_call. run_M.
  destruct (wsdl A _ARM_WS_URL); [|done].
  destruct (reply_text A _) as [v|]; [|done]. simpl. by destruct (String.eqb v "true").
Qed.

Lemma order_clear_run (user : string) (order_id : str_or_int) (w : world) :
  order_clear A user order_id w =
    web_call A (clearOrder user order_id)
      (rbind (reply_text A (clearOrder user order_id))
         (fun v => Ok (String.eqb v "true"))) w.
Proof.
  unfold order_clear, web_call. run_M.
  destruct (wsdl A _ARM_WS_URL); [|done].
  destruct (reply_text A _) as [v|]; [|done]. simpl. by destruct (String.eqb v "true").
Qed.

Lemma order_status_run (order_id : str_or_int) (w : world) :
  order_status A order_id w =
    web_call A (getOrderStatus order_id) (reply_text A (getOrderStatus order_id)) w.
Proof.
  unfold order_status, web_call. run_M.
  destruct (wsdl A _ARM_WS_URL); [|done]. by destruct (reply_text A _).
Qed.

Lemma order_files_run (user : string) (filenames : list string) (w : world) :
  order_files A user filenames w =
    web_call A (processOrder user filenames)
      (rbind (reply_text A (processOrder user filenames)) (fun response =>
         match Re.search order_pattern response with
         | Some m => Ok (true, confirmation (Re.groups 3 m))
         | None => Ok (false, server_response response)
         end)) w.
Proof.
  unfold order_files, web_call. run_M.
  destruct (wsdl A _ARM_WS_URL); [|done].
  destruct (reply_text A _) as [v|]; [|done]. simpl.
  by destruct (Re.search order_pattern v).
Qed.

Lemma list_datastreams_web_call (pattern : option string) (w : world) :
  list_datastreams A pattern w =
    web_call A getDataStreams
      (rbind (reply_list A getDataStreams) (fun datastreams =>
         rbind (_regex_filter datastreams pattern) (fun l => Ok (sorted l)))) w.
Proof. rewrite list_datastreams_run. unfold web_call. by destruct (wsdl A _). Qed.

Lemma list_files_web_call (datastreams : str_or_list) (startdate enddate : string)
    (pattern : option string) (w : world) :
  list_files A datastreams startdate (Some enddate) pattern w =
    web_call A (getFiles datastreams startdate enddate)
      (rbind (reply_list A (getFiles datastreams startdate enddate)) (fun files =>
         if no_data files then Ok []
         else rbind (_regex_filter files pattern) (fun l => Ok (sorted l)))) w.
Proof. rewrite list_files_run. unfold web_call. by destruct (wsdl A _). Qed.

End WebCalls.



(** X2: each function on the web service creates a fresh client and then
    invokes at most one operation; it sends nothing to the FTP server,
    leaves the working directory alone and prints nothing. *)
Theorem web_functions_footprint `{PyRuntime} (A : archive)
    (user : string) (order_id : str_or_int) (filenames : list string)
    (datastreams : str_or_list) (startdate : string) (enddate pattern : option string)
    (w : world) :
  let footprint (w' : world) :=
    ∃ calls, (length calls ≤ 1)%nat
      ∧ w' = World (ws_trace w ++ OpenClient _ARM_WS_URL :: (Invoke <$> calls))
               (ftp_trace w) (ftp_open w) (cwd_files w) (stdout w) in
  footprint (fst (list_datastreams A pattern w))
  ∧ footprint (fst (list_files A datastreams startdate enddate pattern w))
  ∧ footprint (fst (valid_user A user w))
  ∧ footprint (fst (order_files A user filenames w))
  ∧ footprint (fst (order_status A order_id w))
  ∧ footprint (fst (order_clear A user order_id w)).
Proof.
  intros footprint.
  assert (Hcall : ∀ X c (answer : result X), footprint (fst (web_call A c answer w))).
  { intros X c answer. unfold web_call, logged.
    destruct (wsdl A _ARM_WS_URL); cbn [fst ws_trace ftp_trace ftp_open cwd_files stdout].
    - exists [c]. split; [simpl; lia|]. by rewrite <- app_assoc.
    - exists []. split; [simpl; lia|]. done. }
  rewrite list_datastreams_web_call, valid_user_run, order_files_run,
    order_status_run, order_clear_run.
  repeat split; try apply Hcall.
  rewrite list_files_run.
  destruct (wsdl A _ARM_WS_URL) eqn:Hw.
  - destruct (end_date_used startdate enddate) as [e|e].
    + cbv zeta. cbn [fst]. unfold logged. cbn [ws_trace ftp_trace ftp_open cwd_files stdout].
      exists [getFiles datastreams startdate e]. split; [simpl; lia|].
      by rewrite <- app_assoc.
    + exists []. split; [simpl; lia|]. done.
  - exists []. split; [simpl; lia|]. done.
Qed.

(** ** The listing functions of the FTP side *)

Section Listings.
Context (A : archive).

Lemma list_orders_ready_run (user : string) (w : world) :
  list_orders_ready A user w =
    let t := ftp_trace w in
    let n := ftp_open w in
    if negb (ftp_accepts A t (CONNECT _ARM_FTP)) then
      (with_ftp w [CONNECT _ARM_FTP] n, Raise ftp_error)
    else if negb (ftp_accepts A (t ++ [CONNECT _ARM_FTP]) LOGIN) then
      (with_ftp w [CONNECT _ARM_FTP; LOGIN] (S n), Raise ftp_error)
    else if negb (ftp_accepts A (t ++ [CONNECT _ARM_FTP; LOGIN]) (CWD user)) then
      (with_ftp w [CONNECT _ARM_FTP; LOGIN; CWD user] (S n), Raise ftp_error)
    else
      (with_ftp w [CONNECT _ARM_FTP; LOGIN; CWD user; NLST] (S n),
       match ftp_listing A (t ++ [CONNECT _ARM_FTP; LOGIN; CWD user]) with
       | Some names => Ok names
       | None => Raise ftp_error
       end).
Proof.
  unfold list_orders_ready. cbv zeta.
  unfold bind at 1. unfold FTP at 1. unfold bind at 1. unfold voidcmd at 1.
  unfold bind at 1. unfold send at 1.
  destruct (ftp_accepts A (ftp_trace w) (CONNECT _ARM_FTP)); cbn [negb]; [|done].
  unfold ret at 1. unfold set_open at 1.
  unfold bind at 1. unfold ftp_login at 1, voidcmd at 1. unfold bind at 1.
  unfold send at 1. cbn [ws_trace ftp_trace ftp_open cwd_files stdout].
  destruct (ftp_accepts A (ftp_trace w ++ [_]) LOGIN); cbn [negb];
    [|unfold raise, with_ftp; by rewrite <- !app_assoc].
  unfold ret at 1.
  unfold bind at 1. unfold ftp_cwd at 1, voidcmd at 1. unfold bind at 1.
  unfold send at 1. cbn [ws_trace ftp_trace ftp_open cwd_files stdout].
  rewrite <- !app_assoc. cbn [app].
  destruct (ftp_accepts A (ftp_trace w ++ [_; _]) (CWD user)); cbn [negb];
    [|unfold raise, with_ftp; by rewrite <- ?app_assoc].
  unfold ret at 1. unfold ftp_nlst, with_ftp.
  cbn [ws_trace ftp_trace ftp_open cwd_files stdout].
  by rewrite <- !app_assoc.
Qed.

Lemma list_order_files_run (user : string) (order_id : str_or_int) (w : world) :
  list_order_files A user order_id w =
    let t := ftp_trace w in
    let n := ftp_open w in
    let ss := session_start user order_id in
    if negb (ftp_accepts A t (CONNECT _ARM_FTP)) then
      (with_ftp w (take 1 ss) n, Raise ftp_error)
    else if negb (ftp_accepts A (t ++ take 1 ss) LOGIN) then
      (with_ftp w (take 2 ss) (S n), Raise ftp_error)
    else if negb (ftp_accepts A (t ++ take 2 ss) (CWD user)) then
      (with_ftp w (take 3 ss) (S n), Raise ftp_error)
    else if negb (ftp_accepts A (t ++ take 3 ss) (CWD (str order_id))) then
      (with_ftp w ss (S n), Raise ftp_error)
    else
      (with_ftp w (ss ++ [NLST]) (S n),
       match ftp_listing A (t ++ ss) with
       | Some names => Ok names
       | None => Raise ftp_error
       end).
Proof.
  unfold list_order_files, session_start. cbn [take]. cbv zeta.
  unfold bind at 1. unfold FTP at 1. unfold bind at 1. unfold voidcmd at 1.
  unfold bind at 1. unfold send at 1.
  destruct (ftp_accepts A (ftp_trace w) (CONNECT _ARM_FTP)); cbn [negb]; [|done].
  unfold ret at 1. unfold set_open at 1.
  unfold bind at 1. unfold ftp_login at 1, voidcmd at 1. unfold bind at 1.
  unfold send at 1. cbn [ws_trace ftp_trace ftp_open cwd_files stdout].
  destruct (ftp_accepts A (ftp_trace w ++ [_]) LOGIN); cbn [negb];
    [|unfold raise, with_ftp; by rewrite <- !app_assoc].
  unfold ret at 1.
  unfold bind at 1. unfold ftp_cwd at 1, voidcmd at 1. unfold bind at 1.
  unfold send at 1. cbn [ws_trace ftp_trace ftp_open cwd_files stdout].
  rewrite <- !app_assoc. cbn [app].
  destruct (ftp_accepts A (ftp_trace w ++ [_; _]) (CWD user)); cbn [negb];
    [|unfold raise, with_ftp; by rewrite <- ?app_assoc].
  unfold ret at 1.
  unfold bind at 1. unfold ftp_cwd at 1, voidcmd at 1. unfold bind at 1.
  unfold send at 1. cbn [ws_trace ftp_trace ftp_open cwd_files stdout].
  rewrite <- !app_assoc. cbn [app].
  destruct (ftp_accepts A (ftp_trace w ++ [_; _; _]) (CWD (str order_id)));
    cbn [negb]; [|unfold raise, with_ftp; by rewrite <- ?app_assoc].
  unfold ret at 1. unfold ftp_nlst, with_ftp.
  cbn [ws_trace ftp_trace ftp_open cwd_files stdout].
  by rewrite <- !app_assoc.
Qed.

End Listings.

Ltac not_among :=
  let H := fresh in
  intros H; repeat (apply elem_of_cons in H as [H|H]; [discriminate|]);
  by apply elem_of_nil in H.

(** X3: [list_order_files] and [list_orders_ready] hand over the listing of
    the server as it came, in the order of the server, after the commands
    that lead to the directory; they never send QUIT, so that the
    connection, once made, is still open when they return or raise; they
    do not touch the web service, the working directory or standard
    output. *)
Theorem ftp_listings_pass_through_and_stay_open (A : archive) (user : string)
    (order_id : str_or_int) (w : world) :
  let connected := ftp_accepts A (ftp_trace w) (CONNECT _ARM_FTP) in
  let left_as (start : list ftp_command) (run : world * result (list string)) :=
    ∃ cmds,
      fst run = with_ftp w cmds (if connected then S (ftp_open w) else ftp_open w)
      ∧ (QUIT ∉ cmds)
      ∧ ∀ names, snd run = Ok names →
          cmds = start ++ [NLST]
          ∧ ftp_listing A (ftp_trace w ++ start) = Some names in
  left_as (session_start user order_id) (list_order_files A user order_id w)
  ∧ left_as [CONNECT _ARM_FTP; LOGIN; CWD user] (list_orders_ready A user w).
Proof.
  intros connected left_as. subst connected. split.
  - rewrite list_order_files_run. cbv zeta. unfold session_start. cbn [take].
    destruct (ftp_accepts A (ftp_trace w) _); cbn [negb];
      [|eexists; split; [done|]; split; [|done];
        not_among].
    repeat (destruct (ftp_accepts A (ftp_trace w ++ _) _); cbn [negb];
      [|eexists; split; [done|]; split; [|done];
        not_among]).
    eexists. split; [done|]. split.
    + cbn [app]. not_among.
    + intros names. cbn [snd]. split; [done|].
      destruct (ftp_listing A _); [|done]. congruence.
  - rewrite list_orders_ready_run. cbv zeta.
    destruct (ftp_accepts A (ftp_trace w) _); cbn [negb];
      [|eexists; split; [done|]; split; [|done];
        not_among].
    repeat (destruct (ftp_accepts A (ftp_trace w ++ _) _); cbn [negb];
      [|eexists; split; [done|]; split; [|done];
        not_among]).
    eexists. split; [done|]. split.
    + not_among.
    + intros names. cbn [snd]. split; [done|].
      destruct (ftp_listing A _); [|done]. congruence.
Qed.

Lemma ftp_listings_pass_through_and_stay_open_witness :
  let A := toy_archive [] "" ["order_b"; "order_a"] "" in
  list_order_files A "jdoe" (an_int 12345) world0
    = (with_ftp world0 (session_start "jdoe" (an_int 12345) ++ [NLST]) 1,
       Ok ["order_b"; "order_a"])
  ∧ list_orders_ready A "jdoe" world0
    = (with_ftp world0 [CONNECT _ARM_FTP; LOGIN; CWD "jdoe"; NLST] 1,
       Ok ["order_b"; "order_a"]).
Proof.
  intros A.
  destruct (ftp_listings_pass_through_and_stay_open A "jdoe" (an_int 12345) world0)
    as [(c1 & Hw1 & _ & Hn1) (c2 & Hw2 & _ & Hn2)].
  destruct (list_order_files A "jdoe" (an_int 12345) world0) as [w1 r1] eqn:E1.
  destruct (list_orders_ready A "jdoe" world0) as [w2 r2] eqn:E2.
  cbn [fst snd] in *.
  assert (r1 = Ok ["order_b"; "order_a"]) as ->
    by (change r1 with (snd (w1, r1)); rewrite <- E1; vm_compute; reflexivity).
  assert (r2 = Ok ["order_b"; "order_a"]) as ->
    by (change r2 with (snd (w2, r2)); rewrite <- E2; vm_compute; reflexivity).
  destruct (Hn1 _ eq_refl) as [-> _]. destruct (Hn2 _ eq_refl) as [-> _].
  by subst w1 w2.
Defined.

(** ** What [order_download] leaves behind *)

Section Leftovers.
Context (A : archive).

Lemma stored_keeps (got : list string) (name : string) :
  ∀ (hist : list ftp_command) (dir : gmap string string),
    is_Some (dir !! name) → is_Some (stored A hist got dir !! name).
Proof.
  induction got as [|x got IH]; intros hist dir Hs; simpl; [done|].
  apply IH. destruct (decide (x = name)) as [->|Hne].
  - rewrite lookup_insert_eq. by eexists.
  - by rewrite lookup_insert_ne.
Qed.

Lemma stored_snoc (got : list string) (x : string) :
  ∀ (hist : list ftp_command) (dir : gmap string string),
    stored A hist (got ++ [x]) dir
    = <[x := delivered A (hist ++ (retr <$> got)) x]> (stored A hist got dir).
Proof.
  induction got as [|y got IH]; intros hist dir; simpl.
  - by rewrite app_nil_r.
  - rewrite IH. by rewrite <- app_assoc.
Qed.

(** The loop stops at the first transfer that breaks. *)
Lemma transferred_broken (names : list string) :
  ∀ (hist : list ftp_command) (got : list string),
    transferred A hist names = (got, false) →
    ∃ before x,
      got = before ++ [x]
      ∧ snd (ftp_transfer A (hist ++ (retr <$> before)) ("RETR " +:+ x)) = false.
Proof.
  induction names as [|name names IH]; intros hist got; simpl; [done|].
  destruct (ftp_transfer A hist _) as [blocks complete] eqn:Et.
  destruct complete; simpl.
  - destruct (transferred A (hist ++ [retr name]) names) as [got' ok'] eqn:E.
    intros [= <- ->]. destruct (IH _ _ E) as (before & x & -> & Hx).
    exists (name :: before), x. split; [done|].
    simpl. by rewrite <- app_assoc in Hx.
  - intros [= <-]. exists [], name. split; [done|].
    simpl. rewrite app_nil_r. simpl in Et. by rewrite Et.
Qed.

End Leftovers.




(** ** Filtering *)

Lemma filter_sublist {X} (f : X → bool) (l : list X) : List.filter f l `sublist_of` l.
Proof.
  induction l as [|x l IH]; simpl; [constructor|].
  destruct (f x); by constructor.
Qed.

Lemma filter_filter {X} (f : X → bool) (l : list X) :
  List.filter f (List.filter f l) = List.filter f l.
Proof.
  induction l as [|x l IH]; simpl; [done|].
  destruct (f x) eqn:Hf; simpl; [|done]. by rewrite Hf, IH.
Qed.



(** ** The default end date, again *)

Lemma default_end_date `{PyRuntime} (y m d : Z) :
  valid_date y m d → (y, m, d) ≠ (9999, 12, 31) →
  strftime_min_year ≤ fst (fst (next_day y m d)) →
  end_date_used (yyyymmdd y m d) None
  = Ok (let '(y', m', d') := next_day y m d in yyyymmdd y' m' d').
Proof.
  intros Hv Hmax Hmin.
  pose proof (add_days_next_day y m d Hv Hmax) as Hadd.
  destruct (next_day y m d) as [[y' m'] d']. destruct Hadd as [Hadd _].
  cbn [fst] in Hmin.
  unfold end_date_used. rewrite strptime_yyyymmdd by done. cbn [rbind].
  rewrite Hadd. cbn [rbind]. unfold DateTime.strftime. cbn [DateTime.year].
  replace (y' <? strftime_min_year) with false by (symmetry; apply Z.ltb_ge; lia).
  reflexivity.
Qed.



(** ** The command line *)

Ltac run_main :=
  cbv [main main_bind main_ret main_raise call print_all].

Lemma print_lines (lines : list string) :
  ∀ w : world, for_each print lines w = (with_output w lines, Ok tt).
Proof.
  induction lines as [|l lines IH]; intros w; simpl.
  - unfold ret, with_output. rewrite app_nil_r. by destruct w.
  - unfold bind at 1. unfold print at 1. rewrite IH. unfold with_output.
    cbn [ws_trace ftp_trace ftp_open cwd_files stdout]. by rewrite <- app_assoc.
Qed.

(** X8: where the [order] command takes its files from. With nothing to
    order it stops with [SystemExit] before anything is sent or read.
    Files named on the command line win: a file list and a date range
    given as well are ignored, the list is not even opened. A file list
    wins over a date range. *)
Theorem order_command_sources `{PyRuntime} (A : archive) (usage user : string)
    (files : list string) (dates : option (string * string * string))
    (file : option string) (name : string) (w : world) :
  main A usage (order_cmd user [] None None) w
    = (w, Raised (SystemExit "error: no files to order"))
  ∧ (files ≠ [] →
     main A usage (order_cmd user files dates file) w
     = main A usage (order_cmd user files None None) w)
  ∧ main A usage (order_cmd user [] dates (Some name)) w
    = main A usage (order_cmd user [] None (Some name)) w.
Proof.
  split; [done|]. split.
  - intros Hne. destruct files as [|f files]; [done|].
    unfold main. cbn [length Nat.eqb negb andb]. by rewrite !andb_false_r.
  - unfold main. cbn [length Nat.eqb negb andb].
    rewrite !andb_true_r. cbn [bool_decide decide_rel].
    rewrite (bool_decide_eq_false_2 (Some name = None)) by done.
    by rewrite !andb_false_r.
Qed.

Lemma order_command_sources_witness :
  let A := toy_archive ["listed.nc"] "Error: quota exceeded" [] "" in
  main (H := literal_runtime) A "usage" (order_cmd "jdoe" ["a.nc"]
          (Some ("sgpmetE13.b1", "20200101", "20200102")) (Some "missing.txt")) world0
  = main (H := literal_runtime) A "usage" (order_cmd "jdoe" ["a.nc"] None None) world0.
Proof.
  intros A.
  destruct (order_command_sources (H := literal_runtime) A "usage" "jdoe" ["a.nc"]
              (Some ("sgpmetE13.b1", "20200101", "20200102")) (Some "missing.txt")
              "missing.txt" world0) as (_ & Hfiles & _).
  apply Hfiles. discriminate.
Defined.



Example order_command_success :
  stdout (fst (main (H := literal_runtime)
                 (toy_archive []
                    "user: jdoe, order session ID: 12345 number of files ordered: 7" [] "")
                 "usage" (order_cmd "jdoe" ["a.nc"] None None) world0))
  = ["Success 7 file(s) ordered, order_id: 12345"].
Proof. by vm_compute. Qed.

(** X10: [download] with a regular expression. A run that returns has
    listed the order directory in one session, which it never closes, and
    has then, in a second session that it closes, retrieved exactly the
    entries of that listing in which the pattern finds a match, in the
    order of the listing, without listing again; the files named on the
    command line play no part. *)
Theorem download_command_with_regex `{PyRuntime} (A : archive)
    (usage user order_id pattern : string) (p : re_pattern) (files : list string)
    (w w' : world) :
  re_compile pattern = Ok p →
  main A usage (download_cmd user order_id (Some pattern) files) w = (w', Returned tt) →
  ∃ names,
    ftp_listing A (ftp_trace w ++ session_start user (an_str order_id)) = Some names
    ∧ ftp_trace w'
      = ftp_trace w ++ session_start user (an_str order_id) ++ [NLST]
        ++ session_start user (an_str order_id)
        ++ (retr <$> List.filter (re_search p) names) ++ [QUIT]
    ∧ ftp_open w' = S (ftp_open w).
Proof.
  intros Hc. unfold main.
  unfold main_bind at 1. unfold main_bind at 1. unfold call at 1.
  destruct (list_order_files A user (an_str order_id) w) as [w1 r1] eqn:E1.
  destruct r1 as [names|]; [|done].
  unfold main_bind at 1. unfold call at 1, lift at 1. cbn [_regex_filter].
  rewrite Hc. cbn [rbind]. unfold main_ret at 1. unfold call.
  destruct (order_download A user (an_str order_id) _ w1) as [w2 r2] eqn:E2.
  destruct r2 as [[]|]; [|done]. intros [= ->].
  rewrite list_order_files_run in E1. cbv zeta in E1.
  repeat match type of E1 with
         | (if negb ?c then _ else _) = _ =>
             destruct c; cbn [negb] in E1; [|done]
         end.
  injection E1 as <- Hl.
  destruct (ftp_listing A _) as [names'|] eqn:El; [|done]. injection Hl as ->.
  exists names. split; [done|].
  destruct (order_download_outcome A user (an_str order_id)
              (Some (a_list (List.filter (re_search p) names)))
              (with_ftp w (session_start user (an_str order_id) ++ [NLST])
                 (S (ftp_open w))))
    as (sent & got & closing & n & r & Hout & _ & _ & Hr).
  specialize (Hout (cwd_files w)).
  assert (Hrun : (w', @Ok unit tt) = (_, r)) by (rewrite <- E2; exact Hout).
  clear Hout E2. injection Hrun as -> <-.
  destruct Hr as (-> & -> & [= <-] & ->).
  cbn [ftp_trace ftp_open with_ftp]. split; [|done].
  unfold preamble. by rewrite <- !app_assoc.
Qed.

Lemma download_command_with_regex_witness :
  let A := toy_archive [] "" ["f1.nc"; "notes.txt"; "f2.nc"] "" in
  let w' := fst (main (H := literal_runtime) A "usage"
                   (download_cmd "jdoe" "12345" (Some "nc") ["notes.txt"]) world0) in
  ∃ names,
    ftp_listing A (ftp_trace world0 ++ session_start "jdoe" (an_str "12345")) = Some names
    ∧ ftp_trace w'
      = ftp_trace world0 ++ session_start "jdoe" (an_str "12345") ++ [NLST]
        ++ session_start "jdoe" (an_str "12345")
        ++ (retr <$> List.filter (re_search (Re.Str "nc" : @re_pattern literal_runtime)) names)
        ++ [QUIT]
    ∧ ftp_open w' = S (ftp_open world0).
Proof.
  intros A w'.
  apply (download_command_with_regex (H := literal_runtime) A "usage" "jdoe" "12345"
           "nc" (Re.Str "nc") ["notes.txt"] world0 w').
  - reflexivity.
  - vm_compute. reflexivity.
Defined.

Example download_by_regex :
  let run := main (H := literal_runtime)
               (toy_archive [] "" ["f1.nc"; "notes.txt"; "f2.nc"] "") "usage"
               (download_cmd "jdoe" "12345" (Some "nc") []) world0 in
  ftp_trace (fst run)
  = [CONNECT _ARM_FTP; LOGIN; CWD "jdoe"; CWD "12345"; NLST;
     CONNECT _ARM_FTP; LOGIN; CWD "jdoe"; CWD "12345";
     RETRBINARY "RETR f1.nc"; RETRBINARY "RETR f2.nc"; QUIT]
  ∧ ftp_open (fst run) = 1%nat.
Proof. by vm_compute. Qed.

(** X11: the four listing commands print what the function they call
    returns, one entry per line in the order returned, and nothing else;
    when the function raises, nothing is printed and the exception leaves
    [main] uncaught. *)
Theorem listing_commands_print `{PyRuntime} (A : archive) (usage : string)
    (user order_id datastream start : string) (end_ regex : option string) (w : world) :
  let printed (run : world * result (list string)) : world * ended unit :=
    match run with
    | (w', Ok entries) => (with_output w' entries, Returned tt)
    | (w', Raise e) => (w', Raised (uncaught e))
    end in
  main A usage (datastreams_cmd regex) w = printed (list_datastreams A regex w)
  ∧ main A usage (list_cmd datastream start end_ regex) w
    = printed (list_files A (a_str datastream) start end_ regex w)
  ∧ main A usage (files_cmd user order_id) w
    = printed (list_order_files A user (an_str order_id) w)
  ∧ main A usage (ready_cmd user) w = printed (list_orders_ready A user w).
Proof.
  intros printed.
  assert (Hp : ∀ run : M (list string),
    main_bind (call run) (fun l => call (for_each print l)) w = printed (run w)).
  { intros run. unfold main_bind, call, printed.
    destruct (run w) as [w1 [l|e]]; [|done]. by rewrite print_lines. }
  repeat split; apply Hp.
Qed.

Example order_from_file_list :
  let w := with_dir world0 {["list.txt" := " a.nc " +:+ String "010" ("b.nc" +:+ String "010" "")]} in
  ws_trace (fst (main (H := literal_runtime) (toy_archive [] "refused" [] "") "usage"
                   (order_cmd "jdoe" [] None (Some "list.txt")) w))
  = [OpenClient _ARM_WS_URL; Invoke (processOrder "jdoe" ["a.nc"; "b.nc"])].
Proof. by vm_compute. Qed.

Example order_from_missing_file_list :
  main (H := literal_runtime) (toy_archive [] "refused" [] "") "usage"
    (order_cmd "jdoe" [] None (Some "list.txt")) world0
  = (world0, Raised IOError).
Proof. by vm_compute. Qed.

Example main_without_command :
  main (H := literal_runtime) (toy_archive [] "" [] "") "usage: arm_archive" no_command world0
  = (with_output world0 ["usage: arm_archive"], Raised AttributeError).
Proof. by vm_compute. Qed.
